(** * GeoChat-Agent: the conversation workflow of [backend/agent.py]

    A shallow embedding of the four workflow nodes ([intent_node],
    [geo_query_node], [location_helper_node], [flood_vulnerability_node]), of
    the Producer [flood_vulnerability] and of the graph that sequences them,
    followed by the properties of the specification that concern them.

    Conventions of the embedding:
    - a Python [str] is a [string] whose characters are the code points below
      256; [strip] and [lower] follow Python on that range;
    - a Python [float] is a binary64 [float]; comparisons are the IEEE ones;
    - the conversation state is a Python [dict]: a finite map from keys to
      values ([gmap string value]); a key may be absent, or bound to [None];
    - the graph is a [StateGraph] over the schema [AgentState]: between the
      nodes it holds one value per field of the schema, and nothing else;
    - an exception is its message ([str(e)]); a call that can raise returns
      [res];
    - the outside world (completion provider, geocoder, geospatial platform,
      and the runtime's number formatting) is a record of outcomes, [World];
    - every call to the outside world is appended to a log, so that "is not
      called" is a statement about the log. *)

From Stdlib Require Import Floats ZArith String Ascii List Bool.
From stdpp Require Import gmap strings list fin_maps.

Set Warnings "-inexact-float,-register-all".
Local Open Scope string_scope.
Local Open Scope Z_scope.

(** ** Python strings *)

Module Py.

(** [str.isspace] on the code points below 256. *)
Definition is_space (c : ascii) : bool :=
  let n := N_of_ascii c in
  (((9 <=? n) && (n <=? 13)) || ((28 <=? n) && (n <=? 32))
   || (n =? 133) || (n =? 160))%N.

(** [str.lower] on one code point below 256: A-Z, and the accented capitals
    U+00C0..U+00DE except the multiplication sign U+00D7. *)
Definition lower_char (c : ascii) : ascii :=
  let n := N_of_ascii c in
  if (((65 <=? n) && (n <=? 90))
      || ((192 <=? n) && (n <=? 222) && negb (n =? 215)))%N
  then ascii_of_N (n + 32) else c.

Fixpoint lower (s : string) : string :=
  match s with
  | EmptyString => EmptyString
  | String c s' => String (lower_char c) (lower s')
  end.

Definition is_empty (s : string) : bool :=
  match s with EmptyString => true | _ => false end.

Fixpoint lstrip (s : string) : string :=
  match s with
  | EmptyString => EmptyString
  | String c s' => if is_space c then lstrip s' else s
  end.

Fixpoint rstrip (s : string) : string :=
  match s with
  | EmptyString => EmptyString
  | String c s' =>
      let r := rstrip s' in
      if is_space c && is_empty r then EmptyString else String c r
  end.

(** [s.strip()] *)
Definition strip (s : string) : string := rstrip (lstrip s).

(** [s.startswith(p)] *)
Fixpoint startswith (s p : string) : bool :=
  match p, s with
  | EmptyString, _ => true
  | String _ _, EmptyString => false
  | String a p', String b s' => Ascii.eqb a b && startswith s' p'
  end.

(** [p in s] *)
Fixpoint contains (p s : string) : bool :=
  startswith s p
  || match s with
     | EmptyString => false
     | String _ s' => contains p s'
     end.

(** [s.split(sep)] for a one-character separator: one field more than there
    are separators. *)
Fixpoint split (sep : ascii) (s : string) : list string :=
  match s with
  | EmptyString => [EmptyString]
  | String c s' =>
      if Ascii.eqb c sep then EmptyString :: split sep s'
      else match split sep s' with
           | [] => [String c EmptyString]
           | f :: fs => String c f :: fs
           end
  end.

(** [s.split(sep, 1)]: cut at the first separator only. *)
Fixpoint split1 (sep : ascii) (s : string) : list string :=
  match s with
  | EmptyString => [EmptyString]
  | String c s' =>
      if Ascii.eqb c sep then [EmptyString; s']
      else match split1 sep s' with
           | [] => [String c EmptyString]
           | f :: fs => String c f :: fs
           end
  end.

(** Dropping the first [n] characters, [s[n:]]. *)
Fixpoint drop (n : nat) (s : string) : string :=
  match n, s with
  | O, _ => s
  | S n', String _ s' => drop n' s'
  | S _, EmptyString => EmptyString
  end.

End Py.

(** ** Values, exceptions and the conversation state *)

(** A layer of a [geemap.Map]; [layer_url] is its [url] attribute when it has
    one. *)
Record layer := Layer { layer_name : string; layer_url : option string }.

(** The Python values the workflow handles. A dict literal keeps its entries
    in the order they are written. *)
Inductive value : Type :=
| VNone
| VBool (b : bool)
| VInt (n : Z)
| VFloat (x : float)
| VStr (s : string)
| VList (items : list value)
| VDict (entries : list (string * value))
| VMap (layers : list layer).

(** The outcome of a call that may raise; an exception is its message. *)
Inductive res (A : Type) : Type :=
| Ok (a : A)
| Raise (e : string).
Arguments Ok {A} a.
Arguments Raise {A} e.

(** [AgentState]: a dict from field names to values. *)
Abbreviation State := (gmap string value).

(** [bool(v)] *)
Definition truthy (v : value) : bool :=
  match v with
  | VNone => false
  | VBool b => b
  | VInt n => negb (n =? 0)
  | VFloat x => negb (x =? 0)%float
  | VStr s => negb (Py.is_empty s)
  | VList items => match items with [] => false | _ => true end
  | VDict entries => match entries with [] => false | _ => true end
  | VMap _ => true
  end.

(** [state.get(key)] *)
Definition get (state : State) (key : string) : value :=
  default VNone (state !! key).

(** [state.get(key, d)] *)
Definition get_or (state : State) (key : string) (d : value) : value :=
  default d (state !! key).

(** [state[key]]; a missing key raises [KeyError], whose message is the
    quoted key. *)
Definition item (state : State) (key : string) : res value :=
  match state !! key with
  | Some v => Ok v
  | None => Raise ("'" +:+ key +:+ "'")
  end.

(** [d[key]] or absence, on a dict value. *)
Fixpoint entry (key : string) (entries : list (string * value)) : option value :=
  match entries with
  | [] => None
  | (k, v) :: rest => if String.eqb k key then Some v else entry key rest
  end.

(** [v.get(key)] on a value that is a dict. *)
Definition field (v : value) (key : string) : option value :=
  match v with
  | VDict entries => entry key entries
  | _ => None
  end.

(** What [Optional[float]] admits for [lat] and [lon]. *)
Definition is_coordinate (v : value) : bool :=
  match v with
  | VNone | VFloat _ => true
  | _ => false
  end.

(** ** The outside world *)

(** What a chain's [invoke] returns: a dict (with its ['text'] entry, if any,
    a string or [None]), an object with a [content] attribute, or anything
    else; [shown] is [str(result)]. *)
Inductive reply : Type :=
| RDict (text : option (option string)) (shown : string)
| RMessage (content : string) (shown : string)
| RPlain (shown : string).

(** The geospatial platform, one outcome per request of
    [flood_vulnerability]. *)
Record Platform := {
  (** [geemap.Map(center=[lat, lon], zoom=12)]: the layers of the new map *)
  new_map : value -> value -> res (list layer);
  (** [m.add_basemap(name)] *)
  add_basemap : string -> res layer;
  (** [ee.Geometry.Point([lon, lat])] and [point.buffer(10000)] *)
  point_buffer : value -> value -> res unit;
  (** the clipped mosaic of the ['depth'] band of the flood-hazard collection *)
  flood_depth : res unit;
  (** the ['elevation'] band of the terrain image, and its clip *)
  elevation : res unit;
  (** [m.addLayer(obj, vis, name)] on a map that has [n] layers *)
  add_layer : nat -> string -> res layer;
  (** [clipped_flood.reduceRegion(mean, area, scale=90).getInfo()] *)
  reduce_region : res (gmap string value);
  (** [m.centerObject(buffered_area, 12)] *)
  center_object : res unit
}.

Record World := {
  (** [intent_chain.invoke({"input": x})] *)
  intent_chain : value -> res reply;
  (** [geo_chain.invoke({"input": x})] *)
  geo_chain : value -> res reply;
  (** [geolocator.geocode(query)]: no match, or the match's
      [(latitude, longitude)] *)
  geocode : string -> res (option (float * float));
  platform : Platform;
  (** [format(x, '.<digits>f')] on a number *)
  format_fixed : nat -> value -> string;
  (** [str(x)] on a value that is neither [None] nor a string *)
  format_str : value -> string
}.

(** ** Calls, and the monad of the nodes *)

Module Node.
Inductive t := intent | geo_query | location_helper | flood_vulnerability.
End Node.

Inductive event : Type :=
| Enter (n : Node.t)
| CallIntentChain (input : value)
| CallGeoChain (input : value)
| CallGeocode (query : string)
| CallFloodVulnerability (lat lon location_name : value).

(** What a computation can change: the log of calls, and the layers of the
    map object [m] under construction. *)
Record store := Store { calls : list event; map_layers : list layer }.

Definition M (A : Type) : Type := store -> res A * store.

Definition ret {A} (a : A) : M A := fun st => (Ok a, st).

Definition raise {A} (e : string) : M A := fun st => (Raise e, st).

Definition bind {A B} (m : M A) (k : A -> M B) : M B :=
  fun st =>
    match m st with
    | (Ok a, st') => k a st'
    | (Raise e, st') => (Raise e, st')
    end.

(** [try: body except Exception as e: handler]; what [body] did to the store
    before raising stays done. *)
Definition try_ {A} (body : M A) (handler : string -> M A) : M A :=
  fun st =>
    match body st with
    | (Ok a, st') => (Ok a, st')
    | (Raise e, st') => handler e st'
    end.

Definition lift {A} (r : res A) : M A := fun st => (r, st).

Definition log (ev : event) : M unit :=
  fun st => (Ok tt, Store (calls st ++ [ev]) (map_layers st)).

(** An outside call: logged, then its outcome. *)
Definition call {A} (ev : event) (r : res A) : M A :=
  bind (log ev) (fun _ => lift r).

Definition get_layers : M (list layer) := fun st => (Ok (map_layers st), st).

Definition set_layers (ls : list layer) : M unit :=
  fun st => (Ok tt, Store (calls st) ls).

Notation "'let*' x ':=' m 'in' k" := (bind m (fun x => k))
  (at level 10, x name, m at level 100, k at level 200).

Definition empty_store : store := Store [] [].

(** ** Node 1: the intent classifier *)

(** [result.get('text') if isinstance(result, dict) and 'text' in result
    else str(result)] *)
Definition intent_text (result : reply) : option string :=
  match result with
  | RDict (Some text) _ => text
  | RDict None shown | RMessage _ shown | RPlain shown => Some shown
  end.

(** [text.strip() if text else ''] *)
Definition strip_if (text : option string) : string :=
  match text with
  | Some s => if negb (Py.is_empty s) then Py.strip s else EmptyString
  | None => EmptyString
  end.

Definition intent_node (w : World) (state : State) : M State :=
  let* input := lift (item state "input") in
  let* result := call (CallIntentChain input) (intent_chain w input) in
  let text := strip_if (intent_text result) in
  let intent :=
    if String.eqb text "normal" || String.eqb text "query"
    then VStr text else VNone in
  ret (<["intent" := intent]> state).

(** ** Node 2: the geo-query extractor *)

(** [result.content if hasattr(result, 'content') else str(result)] *)
Definition answer_text (result : reply) : string :=
  match result with
  | RMessage content _ => content
  | RDict _ shown | RPlain shown => shown
  end.

(** One turn of the loop over the reply's lines; [acc] holds the local
    variables [location] and [analysis]. *)
Definition scan_line (acc : value * value) (line : string)
  : res (value * value) :=
  let '(location, analysis) := acc in
  let line := Py.strip line in
  if Py.startswith (Py.lower line) "location:" then
    match Py.split1 ":" line !! 1%nat with
    | Some rest => Ok (VStr (Py.strip rest), analysis)
    | None => Raise "list index out of range"
    end
  else if Py.startswith (Py.lower line) "analysis:" then
    match Py.split1 ":" line !! 1%nat with
    | Some rest => Ok (location, VStr (Py.strip rest))
    | None => Raise "list index out of range"
    end
  else if negb (truthy location) && truthy (VStr line)
          && negb (existsb (fun x => Py.contains x (Py.lower line))
                     ["analysis:"; "reply:"])
  then Ok (VStr line, analysis)
  else Ok acc.

Fixpoint scan_lines (lines : list string) (acc : value * value)
  : res (value * value) :=
  match lines with
  | [] => Ok acc
  | line :: rest =>
      match scan_line acc line with
      | Ok acc' => scan_lines rest acc'
      | Raise e => Raise e
      end
  end.

Definition geo_query_node (w : World) (state : State) : M State :=
  let* input := lift (item state "input") in
  let* result := call (CallGeoChain input) (geo_chain w input) in
  let answer := strip_if (Some (answer_text result)) in
  if Py.contains "ASK_LOCATION" answer then ret state
  else if Py.contains "ASK_ANALYSIS" answer then ret state
  else
    let* found := lift (scan_lines (Py.split "010" answer) (VNone, VNone)) in
    ret (<["analysis" := snd found]> (<["location" := fst found]> state)).

(** ** Node 3: the location resolver *)

Definition type_name (v : value) : string :=
  match v with
  | VNone => "NoneType"
  | VBool _ => "bool"
  | VInt _ => "int"
  | VFloat _ => "float"
  | VStr _ => "str"
  | VList _ => "list"
  | VDict _ => "dict"
  | VMap _ => "Map"
  end.

(** [v + suffix] for a string [suffix]; anything but a string on the left
    raises [TypeError] (caught and only printed by the one caller). *)
Definition add_str (v : value) (suffix : string) : res string :=
  match v with
  | VStr s => Ok (s +:+ suffix)
  | _ => Raise ("unsupported operand type(s) for +: '" +:+ type_name v
                +:+ "' and 'str'")
  end.

Definition location_helper_node (w : World) (state : State) : M State :=
  if negb (truthy (get state "location")) then ret state
  else
    try_
      (let* place := lift (item state "location") in
       let* query := lift (add_str place ", India") in
       let* location := call (CallGeocode query) (geocode w query) in
       match location with
       | Some (lat, lon) =>
           ret (<["lon" := VFloat lon]> (<["lat" := VFloat lat]> state))
       | None => ret state
       end)
      (fun _ => ret state).

(** ** The Producer: [flood_vulnerability] *)

(** [n > bound] for a Python [int] and a [float]: exact, as Python compares
    them. *)
Definition Z_gt_float (n : Z) (bound : float) : bool :=
  match Prim2SF bound with
  | S754_nan => false
  | S754_infinity negative => negative
  | S754_zero _ => 0 <? n
  | S754_finite negative m e =>
      let mz := if negative then Z.neg m else Z.pos m in
      if 0 <=? e then mz * 2 ^ e <? n else mz <? n * 2 ^ (- e)
  end.

(** [v > bound] against a float literal. *)
Definition gt (v : value) (bound : float) : res bool :=
  match v with
  | VFloat x => Ok (bound <? x)%float
  | VInt n => Ok (Z_gt_float n bound)
  | VBool b => Ok (Z_gt_float (Z.b2z b) bound)
  | _ => Raise ("'>' not supported between instances of '" +:+ type_name v
                +:+ "' and 'float'")
  end.

(** The recommendation of each tier. *)
Definition recommendation_high : string :=
  "This area has high flood risk. Avoid construction and consider flood mitigation measures.".

Definition recommendation_moderate : string :=
  "This area has moderate flood risk. Consider flood-resistant construction.".

Definition recommendation_low : string :=
  "This area has low flood risk, but stay informed about local conditions.".

(** The two thresholds on the depth value: the pair
    [(risk_level, recommendation)]. *)
Definition risk (flood_value : value) : res (string * string) :=
  match gt flood_value 0.5 with
  | Raise e => Raise e
  | Ok true => Ok ("High", recommendation_high)
  | Ok false =>
      match gt flood_value 0.2 with
      | Raise e => Raise e
      | Ok true => Ok ("Moderate", recommendation_moderate)
      | Ok false => Ok ("Low", recommendation_low)
      end
  end.

(** The integers that do not convert to a [float]: the largest binary64 is
    [2^1024 - 2^971], and rounding to nearest-even sends [2^1024 - 2^970]
    and what lies beyond it out of range. *)
Definition float_of_int_overflows (n : Z) : bool :=
  2 ^ 1024 - 2 ^ 970 <=? Z.abs n.

(** [f"{v:.<digits>f}"]: a float is formatted, an [int] (or [bool]) is
    converted to a float first, which raises [OverflowError] when it is too
    large; nothing else takes the format code. *)
Definition fixed (w : World) (digits : nat) (v : value) : res string :=
  match v with
  | VFloat _ | VBool _ => Ok (format_fixed w digits v)
  | VInt n =>
      if float_of_int_overflows n
      then Raise "int too large to convert to float"
      else Ok (format_fixed w digits v)
  | VStr _ => Raise "Unknown format code 'f' for object of type 'str'"
  | _ => Raise ("unsupported format string passed to " +:+ type_name v
                +:+ ".__format__")
  end.

(** The numbers that [fixed] formats. *)
Definition formattable (v : value) : bool :=
  match v with
  | VFloat _ | VBool _ => true
  | VInt n => negb (float_of_int_overflows n)
  | _ => false
  end.

(** [f"{v}"] *)
Definition py_str (w : World) (v : value) : string :=
  match v with
  | VStr s => s
  | VNone => "None"
  | VBool true => "True"
  | VBool false => "False"
  | _ => format_str w v
  end.

(** The narrative, an f-string. *)
Definition analysis_text (w : World) (lat lon location_name : value)
    (risk_level : string) (flood_value : value) (recommendation : string)
  : res string :=
  match fixed w 4 lat with
  | Raise e => Raise e
  | Ok lat4 =>
  match fixed w 4 lon with
  | Raise e => Raise e
  | Ok lon4 =>
  match fixed w 2 flood_value with
  | Raise e => Raise e
  | Ok depth2 =>
  Ok ("
            ## Flood Hazard Assessment for "
     +:+ (py_str w (if truthy location_name then location_name else VStr "Selected Location"))
     +:+ "
            **Coordinates:** "
     +:+ lat4
     +:+ ", "
     +:+ lon4
     +:+ "
            **Flood Risk Level:** "
     +:+ risk_level
     +:+ "
            **Flood Depth Index (0-1):** "
     +:+ depth2
     +:+ "
            
            ### Key Findings:
            - Blue areas indicate potential flood hazard zones (0-1m depth)
            - Darker blue shows higher flood risk areas
            - Elevation data provides additional context
            
            ### Recommendations:
            "
     +:+ recommendation
     +:+ "
            - Monitor local flood warnings and advisories
            - Consult local authorities for detailed flood risk information
            - Consider flood insurance if available in your area
            ")
  end end end.

(** [m.addLayer(...)] and [m.add_basemap(...)]: on success the layer joins
    the map. *)
Definition push_layer (r : res layer) : M unit :=
  let* l := lift r in
  let* ls := get_layers in
  set_layers (ls ++ [l]).

Definition addLayer (P : Platform) (name : string) : M unit :=
  let* ls := get_layers in
  push_layer (add_layer P (length ls) name).

(** Returns the pair [(analysis_text, map_object)]. *)
Definition flood_vulnerability (w : World) (lat lon location_name : value)
  : M (value * value) :=
  let P := platform w in
  try_
    (let* m := lift (new_map P lat lon) in
     let* _ := set_layers m in
     let* _ := push_layer (add_basemap P "SATELLITE") in
     let* _ := lift (point_buffer P lon lat) in
     try_
       (let* _ := lift (flood_depth P) in
        let* _ := addLayer P "Flood Hazard (0-1m depth)" in
        let* _ := lift (elevation P) in
        let* _ := addLayer P "Elevation (m)" in
        let* _ := addLayer P "Selected Location" in
        let* stats := lift (reduce_region P) in
        let flood_value := default (VInt 0) (stats !! "depth") in
        let* tier := lift (risk flood_value) in
        let* text :=
          lift (analysis_text w lat lon location_name (fst tier) flood_value
                  (snd tier)) in
        let* _ := lift (center_object P) in
        let* m := get_layers in
        ret (VStr text, VMap m))
       (fun e =>
          let* _ := addLayer P "Selected Location" in
          let* m := get_layers in
          ret (VStr ("Basic map for (" +:+ py_str w lat +:+ ", "
                     +:+ py_str w lon +:+ "). Error in flood analysis: "
                     +:+ e),
               VMap m)))
    (fun e => ret (VStr ("Error in flood_vulnerability: " +:+ e), VNone)).

(** ** Node 4: the flood-vulnerability node *)

(** [map_obj.layers[i].url] *)
Definition layer_url_at (map_obj : value) (i : nat) : res string :=
  match map_obj with
  | VMap layers =>
      match layers !! i with
      | Some l =>
          match layer_url l with
          | Some url => Ok url
          | None => Raise "layer has no attribute 'url'"
          end
      | None => Raise "tuple index out of range"
      end
  | _ => Raise ("'" +:+ type_name map_obj
                +:+ "' object has no attribute 'layers'")
  end.

Definition point (lat lon : value) : value :=
  VDict [("lat", lat); ("lng", lon)].

(** The payload when the three tile URLs could be read. *)
Definition layered_map_data (lat lon location_name : value)
    (flood_risk_url water_occurrence_url elevation_url : string) : value :=
  VDict
    [("center", point lat lon);
     ("zoom", VInt 12);
     ("analysis", VStr "flood_vulnerability");
     ("layers",
      VList
        [VDict [("name", VStr "Satellite");
                ("url", VStr "https://mt1.google.com/vt/lyrs=s&x={x}&y={y}&z={z}");
                ("attribution", VStr "Google Satellite");
                ("visible", VBool true);
                ("type", VStr "raster")];
         VDict [("name", VStr "Flood Risk");
                ("url", VStr flood_risk_url);
                ("attribution", VStr "Google Earth Engine");
                ("visible", VBool true);
                ("type", VStr "raster");
                ("minZoom", VInt 0);
                ("maxZoom", VInt 18)];
         VDict [("name", VStr "Water Occurrence");
                ("url", VStr water_occurrence_url);
                ("attribution", VStr "JRC Global Surface Water");
                ("visible", VBool true);
                ("type", VStr "raster");
                ("minZoom", VInt 0);
                ("maxZoom", VInt 18);
                ("opacity", VFloat 0.5)];
         VDict [("name", VStr "Elevation");
                ("url", VStr elevation_url);
                ("attribution", VStr "SRTM Elevation");
                ("visible", VBool true);
                ("type", VStr "raster");
                ("minZoom", VInt 0);
                ("maxZoom", VInt 18);
                ("opacity", VFloat 0.6)]]);
     ("markers",
      VList [VDict [("position", point lat lon);
                    ("popup", location_name);
                    ("color", VStr "red")]])].

(** The payload with an error text and the marker only. *)
Definition marker_map_data (lat lon location_name : value) (error : string)
  : value :=
  VDict
    [("center", point lat lon);
     ("zoom", VInt 12);
     ("error", VStr error);
     ("markers",
      VList [VDict [("position", point lat lon);
                    ("popup", location_name)]])].

Definition missing_coordinates : string :=
  "Missing coordinates for flood analysis".

(** The payload when there is no point: the default center, no layer, no
    marker. *)
Definition default_map_data : value :=
  VDict
    [("center", point (VFloat 11.0168) (VFloat 76.9558));
     ("zoom", VInt 12);
     ("error", VStr missing_coordinates)].

(** The answer of the node when there is no point. *)
Definition no_point_state (state : State) : State :=
  <["map_data" := default_map_data]>
    (<["final_result" := VStr missing_coordinates]> state).

Definition flood_vulnerability_node (w : World) (state : State) : M State :=
  if negb (truthy (get state "lat")) || negb (truthy (get state "lon")) then
    ret (no_point_state state)
  else
    let* lat := lift (item state "lat") in
    let* lon := lift (item state "lon") in
    let location_name := get_or state "location" (VStr "Selected Location") in
    (* the f-string of the log line formats both coordinates *)
    let* _ := lift (fixed w 4 lat) in
    let* _ := lift (fixed w 4 lon) in
    try_
      (let* _ := log (CallFloodVulnerability lat lon location_name) in
       let* produced := flood_vulnerability w lat lon location_name in
       let map_obj := snd produced in
       let* map_data :=
         try_
           (let* flood_risk_url := lift (layer_url_at map_obj 2) in
            let* water_occurrence_url := lift (layer_url_at map_obj 3) in
            let* elevation_url := lift (layer_url_at map_obj 4) in
            ret (layered_map_data lat lon location_name flood_risk_url
                   water_occurrence_url elevation_url))
           (fun _ =>
              ret (marker_map_data lat lon location_name
                     "Could not load map layers. Please try again.")) in
       ret (<["map_data" := map_data]>
              (<["map_object" := map_obj]>
                 (<["final_result" := fst produced]> state))))
      (fun e =>
         let error_msg := "Error in flood vulnerability analysis: " +:+ e in
         ret (<["map_data" := marker_map_data lat lon location_name error_msg]>
                (<["map_object" := VNone]>
                   (<["final_result" := VStr error_msg]> state)))).

(** ** The graph *)

(** [state["intent"] == "normal"] *)
Definition is_str (v : value) (s : string) : bool :=
  match v with
  | VStr s' => String.eqb s' s
  | _ => false
  end.

(** The edges: the conditional edge out of [intent], then the three fixed
    edges; [None] is the end of the turn. *)
Definition route (n : Node.t) (state : State) : res (option Node.t) :=
  match n with
  | Node.intent =>
      match item state "intent" with
      | Ok v => Ok (if is_str v "normal" then None else Some Node.geo_query)
      | Raise e => Raise e
      end
  | Node.geo_query => Ok (Some Node.location_helper)
  | Node.location_helper => Ok (Some Node.flood_vulnerability)
  | Node.flood_vulnerability => Ok None
  end.

Definition run_node (w : World) (n : Node.t) : State -> M State :=
  match n with
  | Node.intent => intent_node w
  | Node.geo_query => geo_query_node w
  | Node.location_helper => location_helper_node w
  | Node.flood_vulnerability => flood_vulnerability_node w
  end.

(** The fields of the class [AgentState], the schema of
    [StateGraph(AgentState)]. *)
Definition AgentState : list string :=
  ["input"; "intent"; "location"; "analysis"; "lat"; "lon"; "final_result";
   "map_object"].

Definition in_schema (key : string) : bool :=
  existsb (String.eqb key) AgentState.

(** What the graph keeps of a dict: it has one channel per field of the
    schema, and a key that is not a field is dropped, in the input of
    [invoke] as in what a node returns. *)
Definition channels (d : State) : State :=
  filter (fun kv => Is_true (in_schema kv.1)) d.

(** The state after a node has returned: the fields it returned take their
    new value ([None] is a value), the others keep the one they had. *)
Definition update (state returned : State) : State :=
  channels returned ∪ state.

(** Running the graph from node [n] on the values of the channels; the edge
    out of a node reads them once the node's update is applied. [fuel]
    bounds the number of steps, as the graph's recursion limit does. *)
Fixpoint run (fuel : nat) (w : World) (n : Node.t) (state : State) : M State :=
  match fuel with
  | O => raise "Recursion limit reached"
  | S fuel' =>
      let* _ := log (Enter n) in
      let* returned := run_node w n state in
      let state' := update state returned in
      let* next := lift (route n state') in
      match next with
      | None => ret state'
      | Some n' => run fuel' w n' state'
      end
  end.

(** [graph.invoke(state)], the entry point being [intent]: the result is the
    values of the channels when the turn ends. *)
Definition graph_invoke (w : World) (state : State) : res State * store :=
  run 25 w Node.intent (channels state) empty_store.

(** The fields a node writes. *)
Definition own_keys (n : Node.t) : list string :=
  match n with
  | Node.intent => ["intent"]
  | Node.geo_query => ["location"; "analysis"]
  | Node.location_helper => ["lat"; "lon"]
  | Node.flood_vulnerability => ["final_result"; "map_object"; "map_data"]
  end.

(** ** Example worlds *)

(** Nothing answers. *)
Definition offline_platform : Platform :=
  {| new_map := fun _ _ => Raise "offline";
     add_basemap := fun _ => Raise "offline";
     point_buffer := fun _ _ => Raise "offline";
     flood_depth := Raise "offline";
     elevation := Raise "offline";
     add_layer := fun _ _ => Raise "offline";
     reduce_region := Raise "offline";
     center_object := Raise "offline" |}.

Definition offline : World :=
  {| intent_chain := fun _ => Raise "offline";
     geo_chain := fun _ => Raise "offline";
     geocode := fun _ => Raise "offline";
     platform := offline_platform;
     format_fixed := fun _ _ => "#";
     format_str := fun _ => "#" |}.

(** What a chat model returns: a message, whose [str] shows its fields, the
    content first. *)
Definition message (content : string) : reply :=
  RMessage content
    ("content='" +:+ content +:+ "' additional_kwargs={} response_metadata={}").

(** Everything answers: a platform whose zonal statistics are [stats]. *)
Definition demo_platform (stats : gmap string value) : Platform :=
  {| new_map := fun _ _ => Ok [Layer "OpenStreetMap" (Some "osm")];
     add_basemap := fun name => Ok (Layer name (Some "satellite"));
     point_buffer := fun _ _ => Ok tt;
     flood_depth := Ok tt;
     elevation := Ok tt;
     add_layer := fun _ name => Ok (Layer name (Some ("tiles/" +:+ name)));
     reduce_region := Ok stats;
     center_object := Ok tt |}.

(** A world whose classifier answers [intent], whose extractor answers
    [answer], and whose geocoder knows Chennai only. *)
Definition demo (intent answer : string) (stats : gmap string value) : World :=
  {| intent_chain := fun _ => Ok (message intent);
     geo_chain := fun _ => Ok (message answer);
     geocode := fun query =>
       if String.eqb query "Chennai, India"
       then Ok (Some (13.0836939%float, 80.270186%float))
       else Ok None;
     platform := demo_platform stats;
     format_fixed := fun _ _ => "#";
     format_str := fun _ => "#" |}.

(** The world of the chain that the source has in a comment, an [LLMChain]:
    the classifier answers with a dict that holds the text. *)
Definition legacy (intent : string) : World :=
  {| intent_chain := fun _ => Ok (RDict (Some (Some intent)) "{...}");
     geo_chain := geo_chain offline;
     geocode := geocode offline;
     platform := offline_platform;
     format_fixed := format_fixed offline;
     format_str := format_str offline |}.

(** The state [graph.invoke] starts from. *)
Definition fresh (input : string) : State := {[ "input" := VStr input ]}.

(** ** The parsing rule in words

    The loop of [geo_query_node] described by what it leaves in [location]
    and [analysis] once every line has been seen. Lines are taken trimmed. *)

Definition is_location_line (line : string) : bool :=
  Py.startswith (Py.lower line) "location:".

Definition is_analysis_line (line : string) : bool :=
  Py.startswith (Py.lower line) "analysis:".

(** What follows the nine characters of the label, trimmed. *)
Definition remainder (line : string) : string := Py.strip (Py.drop 9 line).

(** A bare line: not empty, no location label, and neither "analysis:" nor
    "reply:" anywhere in it. *)
Definition is_bare_line (line : string) : bool :=
  negb (Py.is_empty line) && negb (is_location_line line)
  && negb (Py.contains "analysis:" (Py.lower line))
  && negb (Py.contains "reply:" (Py.lower line)).

(** The last line that satisfies [p]. *)
Fixpoint last_where (p : string -> bool) (lines : list string)
  : option string :=
  match lines with
  | [] => None
  | line :: rest =>
      match last_where p rest with
      | Some l => Some l
      | None => if p line then Some line else None
      end
  end.

(** The lines after the last one that satisfies [p]; all of them when none
    does. *)
Fixpoint after_last (p : string -> bool) (lines : list string)
  : list string :=
  match lines with
  | [] => []
  | line :: rest =>
      if existsb p rest then after_last p rest
      else if p line then rest else line :: rest
  end.

(** [location] after the loop, from its value [before]: the remainder of the
    last line labelled "location:"; when that is empty, or no line is
    labelled and [before] is empty or [None], the first bare line after
    it, if there is one. *)
Definition location_after (before : value) (lines : list string) : value :=
  let labelled :=
    match last_where is_location_line lines with
    | Some line => VStr (remainder line)
    | None => before
    end in
  if truthy labelled then labelled
  else match find is_bare_line (after_last is_location_line lines) with
       | Some line => VStr line
       | None => labelled
       end.

(** [analysis] after the loop: the remainder of the last line labelled
    "analysis:". *)
Definition analysis_after (before : value) (lines : list string) : value :=
  match last_where is_analysis_line lines with
  | Some line => VStr (remainder line)
  | None => before
  end.

(** The trimmed lines of a reply. *)
Definition lines_of (answer : string) : list string :=
  map Py.strip (Py.split "010" answer).

(** ** Auxiliary notions of the statements *)

(** No colon in a label. *)
Fixpoint no_colon (p : string) : bool :=
  match p with
  | EmptyString => true
  | String a p' => negb (Ascii.eqb a ":") && no_colon p'
  end.

(** The intent the classifier stores for a reply. *)
Definition stored_intent (result : reply) : value :=
  let text := strip_if (intent_text result) in
  if String.eqb text "normal" || String.eqb text "query"
  then VStr text else VNone.

(** The platform answers every request of [flood_vulnerability] for the point
    [(lat, lon)]: the new map has the layers [m0], the base map, flood,
    elevation and marker layers are [base], [flood], [elev] and [marker], and
    the zonal statistics are [stats]. *)
Definition platform_answers (P : Platform) (lat lon : value)
    (m0 : list layer) (base flood elev marker : layer)
    (stats : gmap string value) : Prop :=
  new_map P lat lon = Ok m0
  /\ add_basemap P "SATELLITE" = Ok base
  /\ point_buffer P lon lat = Ok tt
  /\ flood_depth P = Ok tt
  /\ add_layer P (length (m0 ++ [base])) "Flood Hazard (0-1m depth)" = Ok flood
  /\ elevation P = Ok tt
  /\ add_layer P (length (m0 ++ [base; flood])) "Elevation (m)" = Ok elev
  /\ add_layer P (length (m0 ++ [base; flood; elev])) "Selected Location"
     = Ok marker
  /\ reduce_region P = Ok stats
  /\ center_object P = Ok tt.

(** Reading a result: the state a run ends with, the number of items of a
    list value, the characters of a string value. *)
Definition final_state (r : res State * store) : State :=
  match fst r with
  | Ok state => state
  | Raise _ => ∅
  end.

Definition count_items (v : option value) : option nat :=
  match v with
  | Some (VList items) => Some (length items)
  | _ => None
  end.

Definition text_of (v : value) : string :=
  match v with
  | VStr s => s
  | _ => EmptyString
  end.

(** The platform answers the requests of [flood_vulnerability] up to the
    three layers: what [platform_answers] says, short of the zonal statistics
    and of the centering. *)
Definition platform_layers (P : Platform) (lat lon : value)
    (m0 : list layer) (base flood elev marker : layer) : Prop :=
  new_map P lat lon = Ok m0
  /\ add_basemap P "SATELLITE" = Ok base
  /\ point_buffer P lon lat = Ok tt
  /\ flood_depth P = Ok tt
  /\ add_layer P (length (m0 ++ [base])) "Flood Hazard (0-1m depth)" = Ok flood
  /\ elevation P = Ok tt
  /\ add_layer P (length (m0 ++ [base; flood])) "Elevation (m)" = Ok elev
  /\ add_layer P (length (m0 ++ [base; flood; elev])) "Selected Location"
     = Ok marker.

(** The payload the node builds from the map it got back: the three tile
    URLs read at positions 2, 3 and 4, or the marker-only payload when one
    of them cannot be read. *)
Definition node_map_data (lat lon location_name map_obj : value) : value :=
  match layer_url_at map_obj 2, layer_url_at map_obj 3,
        layer_url_at map_obj 4 with
  | Ok flood_risk_url, Ok water_occurrence_url, Ok elevation_url =>
      layered_map_data lat lon location_name flood_risk_url
        water_occurrence_url elevation_url
  | _, _, _ =>
      marker_map_data lat lon location_name
        "Could not load map layers. Please try again."
  end.

(** The state after the extractor has parsed a reply. *)
Definition extracted (state : State) (classified answered : reply) : State :=
  <["analysis" :=
      analysis_after VNone (lines_of (Py.strip (answer_text answered)))]>
    (<["location" :=
         location_after VNone (lines_of (Py.strip (answer_text answered)))]>
       (<["intent" := stored_intent classified]> state)).

(** The log of a turn up to the extractor's call. *)
Definition extractor_log (input : value) : list event :=
  [Enter Node.intent; CallIntentChain input;
   Enter Node.geo_query; CallGeoChain input].

(** What the inner [try] of [flood_vulnerability] computes once the layers
    are on the map: the statistics, the tier, the narrative, the
    centering. *)
Definition narrative (w : World) (lat lon location_name : value)
  : res string :=
  match reduce_region (platform w) with
  | Raise e => Raise e
  | Ok stats =>
      let flood_value := default (VInt 0) (stats !! "depth") in
      match risk flood_value with
      | Raise e => Raise e
      | Ok tier =>
          match analysis_text w lat lon location_name (fst tier) flood_value
                  (snd tier) with
          | Raise e => Raise e
          | Ok text =>
              match center_object (platform w) with
              | Raise e => Raise e
              | Ok _ => Ok text
              end
          end
      end
  end.

(** The text of the inner [except]. *)
Definition basic_map_text (w : World) (lat lon : value) (e : string)
  : string :=
  "Basic map for (" +:+ py_str w lat +:+ ", " +:+ py_str w lon
  +:+ "). Error in flood analysis: " +:+ e.


(** The layers of the demo platform. *)
Definition osm_layer : layer := Layer "OpenStreetMap" (Some "osm").
Definition satellite_layer : layer := Layer "SATELLITE" (Some "satellite").
Definition flood_layer : layer :=
  Layer "Flood Hazard (0-1m depth)" (Some "tiles/Flood Hazard (0-1m depth)").
Definition elevation_layer : layer :=
  Layer "Elevation (m)" (Some "tiles/Elevation (m)").
Definition marker_layer : layer :=
  Layer "Selected Location" (Some "tiles/Selected Location").

(** The demo world on a platform whose new map has no layer of its own. *)
Definition bare_map_world (stats : gmap string value) : World :=
  {| intent_chain := intent_chain offline;
     geo_chain := geo_chain offline;
     geocode := geocode offline;
     platform :=
       {| new_map := fun _ _ => Ok [];
          add_basemap := add_basemap (demo_platform stats);
          point_buffer := point_buffer (demo_platform stats);
          flood_depth := flood_depth (demo_platform stats);
          elevation := elevation (demo_platform stats);
          add_layer := add_layer (demo_platform stats);
          reduce_region := reduce_region (demo_platform stats);
          center_object := center_object (demo_platform stats) |};
     format_fixed := format_fixed offline;
     format_str := format_str offline |}.

(** A state with coordinates, as a caller may pass it. *)
Definition located (name : value) (lat lon : float) : State :=
  <["lon" := VFloat lon]>
    (<["lat" := VFloat lat]>
       (<["location" := name]> (fresh "Is this place flood prone?"))).

(** ** The caller: the [/api/agent] endpoint of [backend/main.py] *)

(** Sequencing and [try]/[except] on plain outcomes. *)
Definition and_then {A B} (r : res A) (k : A -> res B) : res B :=
  match r with
  | Ok a => k a
  | Raise e => Raise e
  end.

Definition or_else {A} (r : res A) (handler : string -> res A) : res A :=
  match r with
  | Ok a => Ok a
  | Raise e => handler e
  end.

Notation "'let?' x ':=' r 'in' k" := (and_then r (fun x => k))
  (at level 10, x name, r at level 100, k at level 200).

(** [v.get(key, d)] on any value: only a dict has the method. *)
Definition dict_get (v : value) (key : string) (d : value) : res value :=
  match v with
  | VDict entries => Ok (default d (entry key entries))
  | _ => Raise ("'" +:+ type_name v +:+ "' object has no attribute 'get'")
  end.

(** [key in v] for a string [key]: a key of a dict, a substring of a string,
    an item of a list; the other values are not iterable. *)
Definition has_key (v : value) (key : string) : res bool :=
  match v with
  | VDict entries =>
      Ok (match entry key entries with Some _ => true | None => false end)
  | VStr s => Ok (Py.contains key s)
  | VList items =>
      Ok (existsb (fun x => match x with
                            | VStr s => String.eqb s key
                            | _ => false
                            end) items)
  | _ => Raise ("argument of type '" +:+ type_name v +:+ "' is not iterable")
  end.

(** [d[key] = x] on the entries of a dict: in place for a key that is there,
    at the end for a new one. *)
Fixpoint set_entry (key : string) (x : value)
    (entries : list (string * value)) : list (string * value) :=
  match entries with
  | [] => [(key, x)]
  | (k, v) :: rest =>
      if String.eqb k key then (k, x) :: rest
      else (k, v) :: set_entry key x rest
  end.

(** [v[key] = x] on any value. *)
Definition set_item (v : value) (key : string) (x : value) : res value :=
  match v with
  | VDict entries => Ok (VDict (set_entry key x entries))
  | _ => Raise ("'" +:+ type_name v
                +:+ "' object does not support item assignment")
  end.

(** An HTTP answer: [JSONResponse(status_code=..., content=...)]. *)
Record response := Response { status_code : Z; content : value }.

(** What the endpoint meets: the request's body, the graph of [agent.py]
    (its import included), the map object's [_to_dict] method when it has
    one, and the rendering that [JSONResponse] does of its content when it
    is built. *)
Record Server := {
  request_json : res value;
  invoke : State -> res State;
  to_dict : list layer -> option (res value);
  render : value -> res unit
}.

Definition json_response (S : Server) (status : Z) (body : value)
  : res response :=
  let? _ := render S body in Ok (Response status body).

(** The state the endpoint hands to the graph: every field is there, most of
    them [None]. *)
Definition initial_state (w : World) (user_input location : value) : State :=
  <["map_data" := VNone]>
    (<["map_object" := VNone]>
       (<["final_result" := VNone]>
          (<["lon" := match location with
                      | VDict entries => default VNone (entry "lng" entries)
                      | _ => VNone
                      end]>
             (<["lat" := match location with
                         | VDict entries => default VNone (entry "lat" entries)
                         | _ => VNone
                         end]>
                (<["analysis" := VNone]>
                   (<["location" :=
                        match location with
                        | VDict entries => default VNone (entry "name" entries)
                        | _ => VStr (py_str w location)
                        end]>
                      (<["intent" := VNone]>
                         (<["input" := user_input]> ∅)))))))).

(** The map of the answer when the result has no [map_data] key. *)
Definition fallback_map_data (result : State) : value :=
  VDict
    [("center",
      VDict [("lat", get_or result "lat" (VFloat 11.0168));
             ("lng", get_or result "lon" (VFloat 76.9558))]);
     ("zoom", VInt 12);
     ("layers", VList []);
     ("markers", VList [])].

Definition response_data (result : State) (map_data : value) : value :=
  VDict
    [("status", VStr "success");
     ("text", get_or result "final_result" (VStr "Analysis completed"));
     ("analysis", get result "analysis");
     ("location",
      VDict [("name", get_or result "location" (VStr "Unknown Location"));
             ("lat", get result "lat");
             ("lng", get result "lon")]);
     ("map_data", map_data)].

(** The layer added for a map that gives its id and token. *)
Definition ee_tile_layer (w : World) (mapid token : value) : value :=
  VDict
    [("type", VStr "ee_tile_layer");
     ("name", VStr "Flood Analysis");
     ("visible", VBool true);
     ("url",
      VStr ("https://earthengine.googleapis.com/v1alpha/" +:+ py_str w mapid
            +:+ "/tiles/{z}/{x}/{y}"));
     ("attribution", VStr "Google Earth Engine");
     ("token", token)].

(** The [try] that adds the layer to [map_data]: a [layers] list is made
    when there is none, then appended to. *)
Definition append_layer (map_data new_layer : value) : res value :=
  let? missing := and_then (has_key map_data "layers")
                    (fun b => Ok (negb b)) in
  let? map_data :=
    (if missing then set_item map_data "layers" (VList []) else Ok map_data) in
  match map_data with
  | VDict entries =>
      match entry "layers" entries with
      | Some (VList layers) =>
          Ok (VDict (set_entry "layers" (VList (layers ++ [new_layer]))
                       entries))
      | Some other =>
          Raise ("'" +:+ type_name other
                 +:+ "' object has no attribute 'append'")
      | None => Raise "'layers'"
      end
  | VStr _ => Raise "string indices must be integers"
  | VList _ => Raise "list indices must be integers or slices, not str"
  | _ => Raise ("'" +:+ type_name map_data
                +:+ "' object is not subscriptable")
  end.

(** "Process map object if available": whatever is raised is only logged,
    and [map_data] stays as it was. *)
Definition with_map_object (S : Server) (w : World) (result : State)
    (map_data : value) : value :=
  match result !! "map_object" with
  | Some (VMap layers) =>
      match to_dict S layers with
      | Some (Ok (VDict info)) =>
          match entry "mapid" info, entry "token" info with
          | Some mapid, Some token =>
              match append_layer map_data (ee_tile_layer w mapid token) with
              | Ok map_data' => map_data'
              | Raise _ => map_data
              end
          | _, _ => map_data
          end
      | _ => map_data
      end
  | _ => map_data
  end.

(** "Ensure we have a center point". *)
Definition with_center (result : State) (map_data : value) : res value :=
  let? has := has_key map_data "center" in
  if negb has
     && match result !! "lat", result !! "lon" with
        | Some _, Some _ => true
        | _, _ => false
        end
  then
    let? lat := item result "lat" in
    let? lon := item result "lon" in
    set_item map_data "center" (VDict [("lat", lat); ("lng", lon)])
  else Ok map_data.

(** The answer when the graph fails. *)
Definition agent_error_content (lat lng : value) : value :=
  VDict
    [("status", VStr "error");
     ("message", VStr "Error processing your request. Please try again.");
     ("map_data",
      VDict [("center", VDict [("lat", lat); ("lng", lng)]);
             ("zoom", VInt 10)])].

(** The answer when anything else fails. *)
Definition failure_content (e : string) : value :=
  VDict
    [("status", VStr "error");
     ("message", VStr ("Agent processing failed: " +:+ e));
     ("text",
      VStr "I'm sorry, I encountered an error processing your request. Please try again.")].

Definition agent_endpoint (S : Server) (w : World) : res response :=
  or_else
    (let? data := request_json S in
     let? user_input := dict_get data "input" (VStr EmptyString) in
     let? found := dict_get data "location" VNone in
     let location := if truthy found then found else VDict [] in
     let state := initial_state w user_input location in
     or_else
       (let? result := invoke S state in
        let map_data :=
          with_map_object S w result
            (get_or result "map_data" (fallback_map_data result)) in
        let? map_data := with_center result map_data in
        json_response S 200 (response_data result map_data))
       (fun _ =>
          let? lat := dict_get location "lat" (VFloat 11.0168) in
          let? lng := dict_get location "lng" (VFloat 76.9558) in
          json_response S 500 (agent_error_content lat lng)))
    (fun e => json_response S 500 (failure_content e)).

(** A server over the graph of this file, that renders everything. *)
Definition server (w : World) (body : value) : Server :=
  {| request_json := Ok body;
     invoke := fun state => fst (graph_invoke w state);
     to_dict := fun _ => None;
     render := fun _ => Ok tt |}.

(** A server whose map objects give a map id and a token. *)
Definition tiled_server (w : World) (body : value) : Server :=
  {| request_json := Ok body;
     invoke := fun state => fst (graph_invoke w state);
     to_dict := fun _ =>
       Some (Ok (VDict [("mapid", VStr "projects/p/maps/abc");
                        ("token", VStr "t0k")]));
     render := fun _ => Ok tt |}.

(** The tile URL of the entry of a payload's [layers] that bears a name. *)
Definition named_layer_url (payload : value) (name : string) : option value :=
  match field payload "layers" with
  | Some (VList items) =>
      match find (fun l => match field l "name" with
                           | Some (VStr n) => String.eqb n name
                           | _ => false
                           end) items with
      | Some l => field l "url"
      | None => None
      end
  | _ => None
  end.

(** ** Further notions of the statements *)


(** The nodes a log says were entered, in order. *)
Definition entered (log : list event) : list Node.t :=
  omap (fun ev => match ev with Enter n => Some n | _ => None end) log.

(** The nodes in the order of the edges. *)
Definition path : list Node.t :=
  [Node.intent; Node.geo_query; Node.location_helper;
   Node.flood_vulnerability].

(** The text the Producer returned, when it returned. *)
Definition produced_text (r : res (value * value) * store) : option value :=
  match fst r with
  | Ok produced => Some (fst produced)
  | Raise _ => None
  end.

(** * Properties *)

(** ** The embedding at work *)

Example strip_example : Py.strip "  Chennai 
" = "Chennai".
Proof. reflexivity. Qed.

Example lower_example : Py.lower "LoCaTiOn: X" = "location: x".
Proof. reflexivity. Qed.

Example split_example : Py.split "010" "a
b
" = ["a"; "b"; EmptyString].
Proof. reflexivity. Qed.

Example split1_example :
  Py.split1 ":" "Location: a:b" = ["Location"; " a:b"].
Proof. reflexivity. Qed.

Example contains_example :
  Py.contains "ASK_LOCATION" "Please ASK_LOCATION." = true.
Proof. reflexivity. Qed.

(** A bare line is the location only while none is set; a later labelled
    line overwrites it. *)
Example scan_lines_example :
  scan_lines ["Pune"; "Delhi"; "Reply: ok"; " location:  Chennai "]
    (VNone, VNone)
  = Ok (VStr "Chennai", VNone)
  /\ scan_lines ["Location:"; "Pune"; "Delhi"] (VNone, VNone)
     = Ok (VStr "Pune", VNone).
Proof. split; reflexivity. Qed.

(** The last node of a turn on Chennai, a mean depth of 0.3: four layers and
    one marker in the payload it returns. *)
Example chennai_payload :
  let r := flood_vulnerability_node
             (demo "query" "Location: Chennai
Analysis: flood vulnerability" {[ "depth" := VFloat 0.3 ]})
             (<["lon" := VFloat 80.270186]>
                (<["lat" := VFloat 13.0836939]>
                   (<["location" := VStr "Chennai"]>
                      (fresh "Is Chennai flood prone?"))))
             empty_store in
  count_items (field (get (final_state r) "map_data") "layers") = Some 4%nat
  /\ count_items (field (get (final_state r) "map_data") "markers")
     = Some 1%nat.
Proof. vm_compute. repeat split. Qed.

(** A whole turn: Chennai extracted and geocoded, a mean depth of 0.3. The
    result holds the narrative and the map object; the payload is not a field
    of the schema and is not in it. *)
Example chennai_turn :
  let r := graph_invoke
             (demo "query" "Location: Chennai
Analysis: flood vulnerability" {[ "depth" := VFloat 0.3 ]})
             (fresh "Is Chennai flood prone?") in
  calls (snd r)
  = [Enter Node.intent; CallIntentChain (VStr "Is Chennai flood prone?");
     Enter Node.geo_query; CallGeoChain (VStr "Is Chennai flood prone?");
     Enter Node.location_helper; CallGeocode "Chennai, India";
     Enter Node.flood_vulnerability;
     CallFloodVulnerability (VFloat 13.0836939) (VFloat 80.270186)
       (VStr "Chennai")]
  /\ Py.contains "**Flood Risk Level:** Moderate"
       (text_of (get (final_state r) "final_result")) = true
  /\ final_state r !! "map_data" = None.
Proof. vm_compute. repeat split. Qed.

(** An [int] formats through its conversion to a float: the largest one that
    converts, and the first that does not. *)
Example fixed_example :
  fixed offline 4 (VInt (2 ^ 1024 - 2 ^ 970 - 1)) = Ok "#"
  /\ fixed offline 4 (VInt (2 ^ 1024 - 2 ^ 970))
     = Raise "int too large to convert to float"
  /\ fixed offline 4 (VInt (- 10 ^ 400))
     = Raise "int too large to convert to float"
  /\ fixed offline 4 (VBool true) = Ok "#"
  /\ fixed offline 4 VNone
     = Raise "unsupported format string passed to NoneType.__format__".
Proof. repeat split. Qed.

(** A latitude that does not format: the narrative raises, and the Producer
    falls back on the "Basic map" text. *)
Example overflow_example :
  produced_text
    (flood_vulnerability (demo "query" "Location: Chennai" ∅)
       (VInt (10 ^ 400)) (VFloat 80.270186) (VStr "Chennai") empty_store)
  = Some (VStr "Basic map for (#, #). Error in flood analysis: int too large to convert to float").
Proof. vm_compute. reflexivity. Qed.

(** The graph keeps the fields of the schema, whatever their value. *)
Example channels_example :
  channels (<["map_data" := VNone]> (<["lat" := VNone]> (fresh "hello")))
  = <["lat" := VNone]> (fresh "hello").
Proof. vm_compute. reflexivity. Qed.

(** ** Comparisons of floats *)

Lemma SFcompare_antisym (x y : spec_float) :
  SFcompare y x = CompOpp <$> SFcompare x y.
Proof.
  destruct x as [sx|sx| |sx mx ex], y as [sy|sy| |sy my ey];
    cbn [SFcompare fmap option_fmap option_map];
    try reflexivity;
    try (destruct sx; reflexivity); try (destruct sy; reflexivity);
    try (destruct sx, sy; reflexivity).
  destruct sx, sy; cbn [CompOpp]; try reflexivity; f_equal;
    rewrite (Z.compare_antisym ex ey); destruct (ex ?= ey);
    cbn [CompOpp]; try reflexivity;
    rewrite ?Pos.compare_cont_antisym; cbn [CompOpp]; try reflexivity.
  all: rewrite ?CompOpp_involutive; reflexivity.
Qed.

(** [x <= b] excludes [x > b]. *)
Lemma leb_not_gt (x b : float) :
  (x <=? b)%float = true -> (b <? x)%float = false.
Proof.
  rewrite leb_spec, ltb_spec. unfold SFleb, SFltb.
  rewrite (SFcompare_antisym (Prim2SF x) (Prim2SF b)).
  destruct (SFcompare (Prim2SF x) (Prim2SF b)) as [[]|];
    cbn [fmap option_fmap option_map CompOpp]; congruence.
Qed.

Lemma Prim2SF_02 : Prim2SF 0.2 = S754_finite false 7205759403792794 (-55).
Proof. reflexivity. Qed.

Lemma Prim2SF_05 : Prim2SF 0.5 = S754_finite false 4503599627370496 (-53).
Proof. reflexivity. Qed.

(** [x <= 0.2] excludes [x > 0.5]: the exponents of the two literals
    already separate them. *)
Lemma le02_not_gt05 (x : float) :
  (x <=? 0.2)%float = true -> (0.5 <? x)%float = false.
Proof.
  rewrite leb_spec, ltb_spec, Prim2SF_02, Prim2SF_05. unfold SFleb, SFltb.
  destruct (Prim2SF x) as [s|s| |s m e].
  - destruct s; reflexivity.
  - destruct s; cbn [SFcompare]; congruence.
  - reflexivity.
  - cbn [SFcompare]. destruct s; [congruence|].
    destruct (Z.compare_spec e (-55)), (Z.compare_spec (-53) e);
      subst; try lia; congruence.
Qed.

(** ** The risk tiers *)

Lemma risk_high (d : float) :
  (0.5 <? d)%float = true -> risk (VFloat d) = Ok ("High", recommendation_high).
Proof. intros H. unfold risk, gt. rewrite H. reflexivity. Qed.

Lemma risk_moderate (d : float) :
  (0.2 <? d)%float = true -> (d <=? 0.5)%float = true ->
  risk (VFloat d) = Ok ("Moderate", recommendation_moderate).
Proof.
  intros H2 H5. unfold risk, gt. rewrite (leb_not_gt _ _ H5), H2. reflexivity.
Qed.

Lemma risk_low (d : float) :
  (d <=? 0.2)%float = true -> risk (VFloat d) = Ok ("Low", recommendation_low).
Proof.
  intros H. unfold risk, gt.
  rewrite (le02_not_gt05 _ H), (leb_not_gt _ _ H). reflexivity.
Qed.

(** A whole number is above 0.5, and above 0.2, exactly when it is positive:
    Python compares an [int] with a [float] exactly. *)
Lemma Z_gt_float_05 (n : Z) : Z_gt_float n 0.5 = (0 <? n).
Proof.
  unfold Z_gt_float. rewrite Prim2SF_05.
  change (0 <=? -53) with false. cbv iota.
  change (2 ^ (- -53)) with 9007199254740992.
  destruct (Z.ltb_spec 0 n); [apply Z.ltb_lt|apply Z.ltb_ge]; lia.
Qed.

Lemma Z_gt_float_02 (n : Z) : Z_gt_float n 0.2 = (0 <? n).
Proof.
  unfold Z_gt_float. rewrite Prim2SF_02.
  change (0 <=? -55) with false. cbv iota.
  change (2 ^ (- -55)) with 36028797018963968.
  destruct (Z.ltb_spec 0 n); [apply Z.ltb_lt|apply Z.ltb_ge]; lia.
Qed.

Lemma risk_int (n : Z) :
  risk (VInt n)
  = if 0 <? n then Ok ("High", recommendation_high)
    else Ok ("Low", recommendation_low).
Proof.
  unfold risk, gt. rewrite Z_gt_float_05, Z_gt_float_02.
  destruct (0 <? n); reflexivity.
Qed.

(** C4. The risk tier is a function of the depth value alone, with strict
    thresholds. For a float depth: above 0.5 it is "High", above 0.2 and at
    most 0.5 it is "Moderate", at most 0.2 it is "Low". For a depth that is
    a whole number (the default 0 of [stats.get], or a mean that the
    platform gives as an [int]) or a [bool]: from 1 on it is "High", up to
    0 it is "Low", no whole number lying between the thresholds. Each tier
    comes with its fixed recommendation; 0.6, 0.3, 0.05 and the boundaries
    0.5 and 0.2 fall as the thresholds say. *)
Theorem risk_thresholds (d : float) (n : Z) :
  ((0.5 <? d)%float = true ->
   risk (VFloat d) = Ok ("High", recommendation_high))
  /\ ((0.2 <? d)%float = true -> (d <=? 0.5)%float = true ->
      risk (VFloat d) = Ok ("Moderate", recommendation_moderate))
  /\ ((d <=? 0.2)%float = true ->
      risk (VFloat d) = Ok ("Low", recommendation_low))
  /\ (1 <= n -> risk (VInt n) = Ok ("High", recommendation_high))
  /\ (n <= 0 -> risk (VInt n) = Ok ("Low", recommendation_low))
  /\ risk (VBool true) = Ok ("High", recommendation_high)
  /\ risk (VBool false) = Ok ("Low", recommendation_low)
  /\ risk (VFloat 0.6) = Ok ("High", recommendation_high)
  /\ risk (VFloat 0.3) = Ok ("Moderate", recommendation_moderate)
  /\ risk (VFloat 0.05) = Ok ("Low", recommendation_low)
  /\ risk (VFloat 0.5) = Ok ("Moderate", recommendation_moderate)
  /\ risk (VFloat 0.2) = Ok ("Low", recommendation_low).
Proof.
  split; [apply risk_high|].
  split; [apply risk_moderate|].
  split; [apply risk_low|].
  split.
  { intros H. rewrite risk_int.
    destruct (Z.ltb_spec 0 n); [reflexivity|lia]. }
  split.
  { intros H. rewrite risk_int.
    destruct (Z.ltb_spec 0 n); [lia|reflexivity]. }
  repeat split; vm_compute; reflexivity.
Qed.

Lemma risk_thresholds_witness :
  (0.5 <? 0.75)%float = true
  /\ risk (VFloat 0.75) = Ok ("High", recommendation_high)
  /\ (0.2 <? 0.25)%float = true /\ (0.25 <=? 0.5)%float = true
  /\ risk (VFloat 0.25) = Ok ("Moderate", recommendation_moderate)
  /\ (0.125 <=? 0.2)%float = true
  /\ risk (VFloat 0.125) = Ok ("Low", recommendation_low)
  /\ 1 <= 3
  /\ risk (VInt 3) = Ok ("High", recommendation_high)
  /\ -2 <= 0
  /\ risk (VInt (-2)) = Ok ("Low", recommendation_low).
Proof.
  pose proof (risk_thresholds 0.75 3) as (Hh & _ & _ & Hi & _).
  pose proof (risk_thresholds 0.25 (-2)) as (_ & Hm & _ & _ & Hj & _).
  pose proof (risk_thresholds 0.125 0) as (_ & _ & Hl & _).
  split; [reflexivity|]. split; [apply Hh; reflexivity|].
  split; [reflexivity|]. split; [reflexivity|].
  split; [apply Hm; reflexivity|].
  split; [reflexivity|]. split; [apply Hl; reflexivity|].
  split; [lia|]. split; [apply Hi; lia|].
  split; [lia|]. apply Hj; lia.
Defined.

(** ** The flood-vulnerability node without a point *)

(** When either coordinate is falsy the node answers at once: no call is
    logged, the store is untouched. *)
Lemma flood_node_guard (w : World) (state : State) (st : store) :
  negb (truthy (get state "lat")) || negb (truthy (get state "lon")) = true ->
  flood_vulnerability_node w state st = (Ok (no_point_state state), st).
Proof.
  intros H. unfold flood_vulnerability_node. rewrite H. reflexivity.
Qed.

Lemma no_point_state_lookup (state : State) :
  no_point_state state !! "final_result" = Some (VStr missing_coordinates)
  /\ no_point_state state !! "map_data" = Some default_map_data.
Proof.
  unfold no_point_state. split.
  - rewrite lookup_insert_ne by discriminate. apply lookup_insert_eq.
  - apply lookup_insert_eq.
Qed.

(** C6. A state that reaches the node with latitude or longitude absent (or
    [None]): the Producer is not invoked (nothing is logged), [final_result]
    is the fixed "Missing coordinates" text, and the map payload carries that
    error text and the default center (11.0168, 76.9558), with no layers and
    no markers. *)
Theorem missing_coordinates_response (w : World) (state : State) (st : store) :
  get state "lat" = VNone \/ get state "lon" = VNone ->
  exists out,
    flood_vulnerability_node w state st = (Ok out, st)
    /\ out !! "final_result"
       = Some (VStr "Missing coordinates for flood analysis")
    /\ exists payload,
        out !! "map_data" = Some payload
        /\ field payload "error"
           = Some (VStr "Missing coordinates for flood analysis")
        /\ field payload "center"
           = Some (VDict [("lat", VFloat 11.0168); ("lng", VFloat 76.9558)])
        /\ field payload "layers" = None
        /\ field payload "markers" = None.
Proof.
  intros H. exists (no_point_state state).
  destruct (no_point_state_lookup state) as [Hr Hm].
  split.
  - apply flood_node_guard. destruct H as [H|H]; rewrite H; [reflexivity|].
    apply orb_true_r.
  - split; [exact Hr|]. exists default_map_data.
    split; [exact Hm|]. repeat split.
Qed.

(** C9. A state whose latitude or longitude is present and equal to 0.0 is
    answered as if the coordinates were missing: the node tests them for
    truth, and 0.0 is false. *)
Theorem zero_coordinate_taken_as_missing
    (w : World) (state : State) (st : store) (lat lon : float) :
  state !! "lat" = Some (VFloat lat) ->
  state !! "lon" = Some (VFloat lon) ->
  (lat =? 0)%float = true \/ (lon =? 0)%float = true ->
  exists out,
    flood_vulnerability_node w state st = (Ok out, st)
    /\ out !! "final_result"
       = Some (VStr "Missing coordinates for flood analysis")
    /\ exists payload,
        out !! "map_data" = Some payload
        /\ field payload "error"
           = Some (VStr "Missing coordinates for flood analysis")
        /\ field payload "center"
           = Some (VDict [("lat", VFloat 11.0168); ("lng", VFloat 76.9558)]).
Proof.
  intros Hlat Hlon H. exists (no_point_state state).
  destruct (no_point_state_lookup state) as [Hr Hm].
  split.
  - apply flood_node_guard. unfold get. rewrite Hlat, Hlon.
    cbn [default from_option id truthy].
    destruct H as [H|H]; rewrite H; [reflexivity|]. apply orb_true_r.
  - split; [exact Hr|]. exists default_map_data.
    split; [exact Hm|]. split; reflexivity.
Qed.

Lemma missing_coordinates_response_witness :
  get (fresh "Is Atlantis flood prone?") "lat" = VNone
  /\ exists out,
      flood_vulnerability_node offline (fresh "Is Atlantis flood prone?")
        empty_store
      = (Ok out, empty_store)
      /\ out !! "final_result"
         = Some (VStr "Missing coordinates for flood analysis").
Proof.
  split; [reflexivity|].
  destruct (missing_coordinates_response offline
              (fresh "Is Atlantis flood prone?") empty_store)
    as (out & Hrun & Hres & _).
  - left. reflexivity.
  - exists out. split; [exact Hrun | exact Hres].
Defined.

Lemma zero_coordinate_taken_as_missing_witness :
  exists out,
    flood_vulnerability_node (demo "query" "Location: Accra" ∅)
      (<["lon" := VFloat 0]> (<["lat" := VFloat 5.5]> (fresh "Is Accra flood prone?")))
      empty_store
    = (Ok out, empty_store)
    /\ out !! "final_result"
       = Some (VStr "Missing coordinates for flood analysis").
Proof.
  destruct (zero_coordinate_taken_as_missing (demo "query" "Location: Accra" ∅)
              (<["lon" := VFloat 0]>
                 (<["lat" := VFloat 5.5]> (fresh "Is Accra flood prone?")))
              empty_store 5.5 0)
    as (out & Hrun & Hres & _).
  - reflexivity.
  - reflexivity.
  - right. reflexivity.
  - exists out. split; [exact Hrun | exact Hres].
Defined.

(** ** The location resolver *)

Lemma location_helper_cases (w : World) (state : State) (st : store) :
  location_helper_node w state st
  = match state !! "location" with
    | Some (VStr place) =>
        if Py.is_empty place then (Ok state, st)
        else
          let query := place +:+ ", India" in
          let st' := Store (calls st ++ [CallGeocode query]) (map_layers st) in
          match geocode w query with
          | Ok (Some (lat, lon)) =>
              (Ok (<["lon" := VFloat lon]> (<["lat" := VFloat lat]> state)), st')
          | Ok None | Raise _ => (Ok state, st')
          end
    | _ => (Ok state, st)
    end.
Proof.
  unfold location_helper_node, get, item.
  destruct (state !! "location") as [v|]; [|reflexivity].
  cbn [default from_option id].
  destruct (truthy v) eqn:Ht; cbn [negb];
    [|destruct v as [| | | |s| | |]; try reflexivity;
      cbn [truthy] in Ht; destruct (Py.is_empty s); [reflexivity|discriminate]].
  destruct v as [| | | |s| | |]; try reflexivity.
  cbn [truthy] in Ht. destruct (Py.is_empty s); [discriminate|].
  unfold try_, bind, lift, call, log, ret, add_str. cbn.
  destruct (geocode w (s +:+ ", India")) as [[[lat lon]|]|e]; reflexivity.
Qed.

(** Whatever the geocoder does, the resolver returns a state. *)
Lemma location_helper_node_total (w : World) (state : State) (st : store) :
  exists out st', location_helper_node w state st = (Ok out, st').
Proof.
  rewrite location_helper_cases.
  destruct (state !! "location") as [[| | | |s| | |]|]; eauto.
  destruct (Py.is_empty s); eauto.
  cbv zeta. destruct (geocode w (s +:+ ", India")) as [[[lat lon]|]|e]; eauto.
Qed.



(** ** What a node writes *)

Lemma intent_node_shape (w : World) (state out : State) (st : store) :
  fst (intent_node w state st) = Ok out ->
  exists v, out = <["intent" := v]> state.
Proof.
  unfold intent_node, bind, lift, call, log, ret, item.
  destruct (state !! "input") as [input|]; [|discriminate].
  cbn. destruct (intent_chain w input) as [r|e]; [|discriminate].
  cbn. intros [= <-]. eauto.
Qed.

Lemma geo_query_node_shape (w : World) (state out : State) (st : store) :
  fst (geo_query_node w state st) = Ok out ->
  out = state
  \/ exists location analysis,
      out = <["analysis" := analysis]> (<["location" := location]> state).
Proof.
  unfold geo_query_node, bind, lift, call, log, ret, item.
  destruct (state !! "input") as [input|]; [|discriminate].
  cbn. destruct (geo_chain w input) as [r|e]; [|discriminate].
  cbn. destruct (Py.contains "ASK_LOCATION" _); [intros [= <-]; auto|].
  destruct (Py.contains "ASK_ANALYSIS" _); [intros [= <-]; auto|].
  destruct (scan_lines _ _) as [found|e]; [|discriminate].
  intros [= <-]. eauto.
Qed.

Lemma location_helper_node_shape (w : World) (state out : State) (st : store) :
  fst (location_helper_node w state st) = Ok out ->
  out = state
  \/ exists lat lon, out = <["lon" := lon]> (<["lat" := lat]> state).
Proof.
  rewrite location_helper_cases.
  destruct (state !! "location") as [[| | | |s| | |]|];
    try (intros [= <-]; auto).
  destruct (Py.is_empty s); [intros [= <-]; auto|].
  cbv zeta. destruct (geocode w _) as [[[lat lon]|]|e];
    intros [= <-]; eauto.
Qed.

Lemma flood_vulnerability_node_shape
    (w : World) (state out : State) (st : store) :
  fst (flood_vulnerability_node w state st) = Ok out ->
  out = no_point_state state
  \/ exists text map_obj map_data,
      out = <["map_data" := map_data]>
              (<["map_object" := map_obj]>
                 (<["final_result" := text]> state)).
Proof.
  unfold flood_vulnerability_node.
  destruct (_ || _); [intros [= <-]; auto|].
  unfold bind, lift, try_, log, ret.
  destruct (item state "lat") as [lat|e]; [|discriminate].
  destruct (item state "lon") as [lon|e]; [|discriminate].
  destruct (fixed w 4 lat) as [?|e]; [|discriminate].
  destruct (fixed w 4 lon) as [?|e]; [|discriminate].
  destruct (flood_vulnerability w lat lon _ _) as [[produced|e] st'];
    [|intros [= <-]; eauto].
  destruct (layer_url_at (snd produced) 2) as [u2|e];
    [|intros [= <-]; eauto].
  destruct (layer_url_at (snd produced) 3) as [u3|e];
    [|intros [= <-]; eauto].
  destruct (layer_url_at (snd produced) 4) as [u4|e];
    intros [= <-]; eauto.
Qed.

Lemma input_not_own (n : Node.t) : "input" ∉ own_keys n.
Proof.
  destruct n; cbn [own_keys]; rewrite ?not_elem_of_cons;
    repeat split; try discriminate; apply not_elem_of_nil.
Qed.

Lemma frame_of_shape (n : Node.t) (state out : State) :
  (out = state
   \/ (exists v, n = Node.intent /\ out = <["intent" := v]> state)
   \/ (exists l a, n = Node.geo_query
         /\ out = <["analysis" := a]> (<["location" := l]> state))
   \/ (exists lat lon, n = Node.location_helper
         /\ out = <["lon" := lon]> (<["lat" := lat]> state))
   \/ (n = Node.flood_vulnerability /\ out = no_point_state state)
   \/ (exists r m d, n = Node.flood_vulnerability
         /\ out = <["map_data" := d]>
                    (<["map_object" := m]> (<["final_result" := r]> state)))) ->
  forall k, k ∉ own_keys n -> out !! k = state !! k.
Proof.
  intros H k Hk. unfold no_point_state in H.
  destruct H as [->|[(v & -> & ->)|[(l & a & -> & ->)|[(lat & lon & -> & ->)
                |[(-> & ->)|(r & m & d & -> & ->)]]]]];
    [reflexivity|..];
    cbn [own_keys] in Hk; rewrite ?not_elem_of_cons in Hk;
    rewrite ?lookup_insert_ne; intuition congruence.
Qed.

(** C8. Every node is an update of the state on its own fields only: the
    intent for the classifier, location and analysis for the extractor,
    latitude and longitude for the resolver, and the result with the map
    (object and payload) for the producer. Every other field of the state it
    returns has the value it had in the state it was given, and [input] is
    never among the fields written. *)
Theorem node_frame (w : World) (n : Node.t) (state out : State) (st : store) :
  fst (run_node w n state st) = Ok out ->
  (forall k, k ∉ own_keys n -> out !! k = state !! k)
  /\ out !! "input" = state !! "input".
Proof.
  intros H.
  assert (forall k, k ∉ own_keys n -> out !! k = state !! k) as Hframe.
  { apply frame_of_shape. destruct n; cbn [run_node] in H.
    - apply intent_node_shape in H as [v ->]. right; left; eauto.
    - apply geo_query_node_shape in H as [->|(l & a & ->)]; [auto|].
      right; right; left; eauto.
    - apply location_helper_node_shape in H as [->|(lat & lon & ->)]; [auto|].
      right; right; right; left; eauto.
    - apply flood_vulnerability_node_shape in H as [->|(r & m & d & ->)].
      + right; right; right; right; left. auto.
      + right; right; right; right; right. eauto. }
  split; [exact Hframe|]. apply Hframe, input_not_own.
Qed.

Lemma node_frame_witness :
  let state := <["location" := VStr "Chennai"]> (fresh "Is Chennai flood prone?") in
  let out := <["lon" := VFloat 80.270186]> (<["lat" := VFloat 13.0836939]> state) in
  fst (run_node (demo "query" "Location: Chennai" ∅) Node.location_helper
         state empty_store) = Ok out
  /\ out !! "location" = state !! "location"
  /\ out !! "input" = state !! "input".
Proof.
  intros state out.
  assert (fst (run_node (demo "query" "Location: Chennai" ∅)
                 Node.location_helper state empty_store) = Ok out) as Hrun
      by reflexivity.
  split; [exact Hrun|].
  destruct (node_frame _ _ _ _ _ Hrun) as [Hframe Hinput].
  split; [|exact Hinput].
  apply Hframe. cbn [own_keys]. rewrite !not_elem_of_cons.
  repeat split; try discriminate. apply not_elem_of_nil.
Defined.

(** ** Strings *)

Lemma lower_char_colon (c : ascii) : Py.lower_char c = ":"%char -> c = ":"%char.
Proof.
  destruct c as [[] [] [] [] [] [] [] []]; vm_compute; congruence.
Qed.

Lemma strip_if_Some (s : string) : strip_if (Some s) = Py.strip s.
Proof. destruct s; reflexivity. Qed.

(** [line.split(':', 1)[1]] is what follows the label when the line, in lower
    case, starts with the label and a colon. *)
Lemma split1_labelled (p s : string) :
  no_colon p = true ->
  Py.startswith (Py.lower s) (p +:+ ":") = true ->
  Py.split1 ":" s !! 1%nat = Some (Py.drop (S (String.length p)) s).
Proof.
  revert s. induction p as [|a p IH]; intros [|c s] Hno H;
    cbn in H; try discriminate.
  - apply andb_true_iff in H as [H _]. apply Ascii.eqb_eq in H.
    symmetry in H. apply lower_char_colon in H. subst c. reflexivity.
  - cbn in Hno. apply andb_true_iff in Hno as [Ha Hno].
    apply andb_true_iff in H as [Hc H]. apply Ascii.eqb_eq in Hc.
    assert (Ascii.eqb c ":" = false) as Hcolon.
    { apply Ascii.eqb_neq. intros ->. subst a. discriminate. }
    specialize (IH s Hno H).
    cbn [Py.split1 Py.drop String.length]. rewrite Hcolon.
    destruct (Py.split1 ":" s) as [|f fs]; [discriminate|]. exact IH.
Qed.

Lemma startswith_contains (s p : string) :
  Py.startswith s p = true -> Py.contains p s = true.
Proof. intros H. destruct s; cbn [Py.contains]; rewrite H; reflexivity. Qed.

Lemma location_not_analysis (line : string) :
  is_location_line line = true -> is_analysis_line line = false.
Proof.
  unfold is_location_line, is_analysis_line.
  destruct (Py.lower line) as [|c r]; [discriminate|].
  cbn [Py.startswith]. intros H. apply andb_true_iff in H as [H _].
  apply Ascii.eqb_eq in H. subst c. reflexivity.
Qed.

Lemma analysis_not_bare (line : string) :
  is_analysis_line line = true -> is_bare_line line = false.
Proof.
  intros H. unfold is_bare_line.
  rewrite (startswith_contains _ _ H). cbn [negb].
  rewrite andb_false_r. reflexivity.
Qed.

(** ** The line scanner *)

Lemma last_where_None (p : string -> bool) (lines : list string) :
  existsb p lines = false -> last_where p lines = None.
Proof.
  induction lines as [|l rest IH]; [reflexivity|].
  cbn [existsb last_where]. intros H. apply orb_false_iff in H as [Hl Hrest].
  rewrite (IH Hrest), Hl. reflexivity.
Qed.

Lemma last_where_Some (p : string -> bool) (lines : list string) :
  existsb p lines = true -> exists l, last_where p lines = Some l.
Proof.
  induction lines as [|l rest IH]; [discriminate|].
  cbn [existsb last_where]. intros H.
  destruct (existsb p rest) eqn:Hrest.
  - destruct (IH eq_refl) as [x ->]. eauto.
  - rewrite orb_false_r in H. rewrite (last_where_None _ _ Hrest), H. eauto.
Qed.

Lemma after_last_none (p : string -> bool) (lines : list string) :
  existsb p lines = false -> after_last p lines = lines.
Proof.
  destruct lines as [|l rest]; [reflexivity|].
  cbn [existsb after_last]. intros H. apply orb_false_iff in H as [Hl Hrest].
  rewrite Hrest, Hl. reflexivity.
Qed.

(** One turn of the loop does to [location] and [analysis] what the rule
    says of a reply of one line; it never raises. *)
Lemma scan_line_rule (location analysis : value) (raw : string) :
  scan_line (location, analysis) raw
  = Ok (location_after location [Py.strip raw],
        analysis_after analysis [Py.strip raw]).
Proof.
  unfold scan_line, location_after, analysis_after.
  cbn [last_where after_last existsb find].
  set (line := Py.strip raw).
  fold (is_location_line line). fold (is_analysis_line line).
  destruct (is_location_line line) eqn:Hloc.
  - rewrite (split1_labelled "location" line eq_refl Hloc).
    rewrite (location_not_analysis _ Hloc).
    change (Py.strip (Py.drop (S (String.length "location")) line))
      with (remainder line).
    destruct (truthy (VStr (remainder line))); reflexivity.
  - destruct (is_analysis_line line) eqn:Hana.
    + rewrite (split1_labelled "analysis" line eq_refl Hana).
      cbn [find]. rewrite (analysis_not_bare _ Hana).
      destruct (truthy location); reflexivity.
    + cbn [find]. unfold is_bare_line. rewrite Hloc. cbn [existsb truthy negb].
      rewrite orb_false_r, andb_true_r, negb_orb, andb_assoc.
      destruct (truthy location); cbn [negb andb]; [reflexivity|].
      destruct (negb (Py.is_empty line) && _ && _); reflexivity.
Qed.

Lemma location_after_cons (before : value) (line : string)
    (rest : list string) :
  location_after before (line :: rest)
  = location_after (location_after before [line]) rest.
Proof.
  unfold location_after at 1 2. cbn [last_where after_last].
  destruct (existsb is_location_line rest) eqn:E.
  - destruct (last_where_Some _ _ E) as [x ->]. reflexivity.
  - rewrite (last_where_None _ _ E), (after_last_none _ _ E).
    unfold location_after. cbn [last_where after_last existsb find].
    destruct (is_location_line line) eqn:Hloc.
    + destruct (truthy (VStr (remainder line))) eqn:Ht;
        cbn [find]; rewrite ?Ht; reflexivity.
    + destruct (truthy before) eqn:Ht; [rewrite Ht; reflexivity|].
      cbn [find]. destruct (is_bare_line line) eqn:Hb.
      * assert (truthy (VStr line) = true) as ->; [|reflexivity].
        unfold is_bare_line in Hb. cbn [truthy].
        destruct (Py.is_empty line); [discriminate|reflexivity].
      * rewrite Ht. reflexivity.
Qed.

Lemma analysis_after_cons (before : value) (line : string)
    (rest : list string) :
  analysis_after before (line :: rest)
  = analysis_after (analysis_after before [line]) rest.
Proof.
  unfold analysis_after. cbn [last_where].
  destruct (last_where is_analysis_line rest); [reflexivity|].
  destruct (is_analysis_line line); reflexivity.
Qed.

(** The loop never raises, and leaves what the rule says. *)
Lemma scan_lines_rule (raw : list string) (location analysis : value) :
  scan_lines raw (location, analysis)
  = Ok (location_after location (map Py.strip raw),
        analysis_after analysis (map Py.strip raw)).
Proof.
  revert location analysis. induction raw as [|x raw IH]; intros location analysis.
  - unfold location_after, analysis_after.
    cbn [scan_lines map last_where after_last find].
    destruct (truthy location); reflexivity.
  - cbn [scan_lines map]. rewrite scan_line_rule, IH.
    rewrite (location_after_cons location (Py.strip x) (map Py.strip raw)).
    rewrite (analysis_after_cons analysis (Py.strip x) (map Py.strip raw)).
    reflexivity.
Qed.

(** ** The extractor *)

(** On a reply that carries a sentinel the node gives the state back. *)
Lemma geo_query_node_sentinel (w : World) (state : State) (st : store)
    (input : value) (result : reply) :
  state !! "input" = Some input ->
  geo_chain w input = Ok result ->
  Py.contains "ASK_LOCATION" (Py.strip (answer_text result)) = true
  \/ Py.contains "ASK_ANALYSIS" (Py.strip (answer_text result)) = true ->
  geo_query_node w state st
  = (Ok state, Store (calls st ++ [CallGeoChain input]) (map_layers st)).
Proof.
  intros Hin Hreply Hs.
  unfold geo_query_node, bind, lift, call, log, ret, item.
  rewrite Hin. cbn -[strip_if Py.contains Py.strip scan_lines Py.split].
  rewrite Hreply. cbn -[strip_if Py.contains Py.strip scan_lines Py.split].
  rewrite strip_if_Some.
  destruct Hs as [-> | Hs]; [reflexivity|].
  rewrite Hs. destruct (Py.contains "ASK_LOCATION" _); reflexivity.
Qed.

Lemma geo_query_node_parsed (w : World) (state : State) (st : store)
    (input : value) (result : reply) :
  state !! "input" = Some input ->
  geo_chain w input = Ok result ->
  Py.contains "ASK_LOCATION" (Py.strip (answer_text result)) = false ->
  Py.contains "ASK_ANALYSIS" (Py.strip (answer_text result)) = false ->
  geo_query_node w state st
  = (Ok (<["analysis" :=
             analysis_after VNone (lines_of (Py.strip (answer_text result)))]>
           (<["location" :=
                location_after VNone
                  (lines_of (Py.strip (answer_text result)))]> state)),
     Store (calls st ++ [CallGeoChain input]) (map_layers st)).
Proof.
  intros Hin Hreply Hl Ha.
  unfold geo_query_node, bind, lift, call, log, ret, item.
  rewrite Hin. cbn -[strip_if Py.contains Py.strip scan_lines Py.split].
  rewrite Hreply. cbn -[strip_if Py.contains Py.strip scan_lines Py.split].
  rewrite strip_if_Some.
  rewrite Hl, Ha, scan_lines_rule. reflexivity.
Qed.

(** C5, as the code has it. For a reply without a sentinel, [location] is
    the trimmed remainder of the last line that begins with "location:" in
    any case (each such line overwrites what was there); when that remainder
    is empty, or no line is so labelled, it is the first later bare line:
    non-empty, and containing neither "analysis:" nor "reply:". [analysis] is
    the trimmed remainder of the last line that begins with "analysis:". The
    reply "Location: Chennai", "Analysis: flood risk" on two lines gives
    exactly "Chennai" and "flood risk". *)
Theorem extraction_rule (w : World) (state : State) (st : store)
    (input : value) (result : reply) :
  state !! "input" = Some input ->
  geo_chain w input = Ok result ->
  Py.contains "ASK_LOCATION" (Py.strip (answer_text result)) = false ->
  Py.contains "ASK_ANALYSIS" (Py.strip (answer_text result)) = false ->
  fst (geo_query_node w state st)
  = Ok (<["analysis" :=
            analysis_after VNone (lines_of (Py.strip (answer_text result)))]>
          (<["location" :=
               location_after VNone
                 (lines_of (Py.strip (answer_text result)))]> state))
  /\ location_after VNone (lines_of "Location: Chennai
Analysis: flood risk") = VStr "Chennai"
  /\ analysis_after VNone (lines_of "Location: Chennai
Analysis: flood risk") = VStr "flood risk".
Proof.
  intros Hin Hreply Hl Ha. split; [|split; reflexivity].
  rewrite (geo_query_node_parsed _ _ _ _ _ Hin Hreply Hl Ha). reflexivity.
Qed.

Lemma extraction_rule_witness :
  fst (geo_query_node
         (demo "query" "Location: Chennai
Analysis: flood risk" ∅)
         (fresh "Is Chennai flood prone?") empty_store)
  = Ok (<["analysis" := VStr "flood risk"]>
          (<["location" := VStr "Chennai"]> (fresh "Is Chennai flood prone?"))).
Proof.
  apply (extraction_rule
           (demo "query" "Location: Chennai
Analysis: flood risk" ∅)
           (fresh "Is Chennai flood prone?") empty_store
           (VStr "Is Chennai flood prone?")
           (message "Location: Chennai
Analysis: flood risk")); reflexivity.
Defined.

(** C5, the claim as worded fails: with two lines labelled "location:" the
    first one is "Location: Chennai", whose remainder is "Chennai", and the
    node leaves "Mumbai", the remainder of the last one. *)
Lemma first_location_line_counterexample :
  find is_location_line (lines_of "Location: Chennai
Location: Mumbai") = Some "Location: Chennai"
  /\ remainder "Location: Chennai" = "Chennai"
  /\ fst (geo_query_node
            (demo "query" "Location: Chennai
Location: Mumbai" ∅)
            (fresh "Which city floods?") empty_store)
     = Ok (<["analysis" := VNone]>
             (<["location" := VStr "Mumbai"]> (fresh "Which city floods?"))).
Proof. repeat split. Qed.

(** ** Exceptions *)

Ltac run_monad :=
  unfold try_, bind, lift, call, log, ret, raise, push_layer, addLayer,
    get_layers, set_layers.

Ltac case_outcome :=
  match goal with
  | |- context [match ?x with Ok _ => _ | Raise _ => _ end] =>
      destruct x eqn:?
  | |- context [let (_, _) := ?x in _] => destruct x eqn:?
  end.

(** The Producer catches everything: it returns a text, and a map or
    [None]. *)
Lemma flood_vulnerability_total (w : World) (lat lon location_name : value)
    (st : store) :
  exists text map_obj st',
    flood_vulnerability w lat lon location_name st
    = (Ok (VStr text, map_obj), st').
Proof.
  unfold flood_vulnerability. run_monad.
  repeat (case_outcome; cbn -[analysis_text risk py_str String.append]);
    eauto.
Qed.

Lemma coordinate_item (state : State) (key : string) :
  is_coordinate (get state key) = true ->
  truthy (get state key) = true ->
  exists x, state !! key = Some (VFloat x).
Proof.
  unfold get. destruct (state !! key) as [[| | |x| | | |]|];
    cbn; try discriminate. eauto.
Qed.

(** With coordinates of the declared type the Producer's node never raises,
    and always leaves a text in [final_result]. *)
Lemma flood_vulnerability_node_total (w : World) (state : State) (st : store) :
  is_coordinate (get state "lat") = true ->
  is_coordinate (get state "lon") = true ->
  exists out st' text,
    flood_vulnerability_node w state st = (Ok out, st')
    /\ out !! "final_result" = Some (VStr text).
Proof.
  intros Hlat Hlon.
  destruct (negb (truthy (get state "lat")) || negb (truthy (get state "lon")))
    eqn:Hguard.
  - rewrite (flood_node_guard _ _ _ Hguard).
    destruct (no_point_state_lookup state) as [Hr _]. eauto.
  - apply orb_false_iff in Hguard as [Ht1 Ht2].
    apply negb_false_iff in Ht1, Ht2.
    destruct (coordinate_item _ _ Hlat Ht1) as [x Hx].
    destruct (coordinate_item _ _ Hlon Ht2) as [y Hy].
    unfold flood_vulnerability_node. rewrite Ht1, Ht2. cbn [negb orb].
    unfold item. rewrite Hx, Hy. run_monad. cbn [fixed].
    match goal with
    | |- context [flood_vulnerability ?w ?a ?b ?n ?s] =>
        destruct (flood_vulnerability_total w a b n s)
          as (text & map_obj & st' & ->)
    end.
    cbn [fst snd].
    destruct (layer_url_at map_obj 2); [|eexists _, _, _; split;
      [reflexivity|rewrite !lookup_insert_ne by discriminate;
                    apply lookup_insert_eq]].
    destruct (layer_url_at map_obj 3); [|eexists _, _, _; split;
      [reflexivity|rewrite !lookup_insert_ne by discriminate;
                    apply lookup_insert_eq]].
    destruct (layer_url_at map_obj 4); eexists _, _, _; (split;
      [reflexivity|rewrite !lookup_insert_ne by discriminate;
                    apply lookup_insert_eq]).
Qed.


Lemma intent_node_answers (w : World) (state : State) (st : store)
    (input : value) (result : reply) :
  state !! "input" = Some input ->
  intent_chain w input = Ok result ->
  intent_node w state st
  = (Ok (<["intent" :=
             if String.eqb (strip_if (intent_text result)) "normal"
                || String.eqb (strip_if (intent_text result)) "query"
             then VStr (strip_if (intent_text result)) else VNone]> state),
     Store (calls st ++ [CallIntentChain input]) (map_layers st)).
Proof.
  intros Hin Hreply. unfold intent_node, item. run_monad.
  rewrite Hin. cbn -[strip_if]. rewrite Hreply. reflexivity.
Qed.

Lemma intent_node_propagates (w : World) (state : State) (st : store)
    (input : value) (e : string) :
  state !! "input" = Some input ->
  intent_chain w input = Raise e ->
  fst (intent_node w state st) = Raise e.
Proof.
  intros Hin Hreply. unfold intent_node, item. run_monad.
  rewrite Hin. cbn. rewrite Hreply. reflexivity.
Qed.

Lemma geo_query_node_propagates (w : World) (state : State) (st : store)
    (input : value) (e : string) :
  state !! "input" = Some input ->
  geo_chain w input = Raise e ->
  fst (geo_query_node w state st) = Raise e.
Proof.
  intros Hin Hreply. unfold geo_query_node, item. run_monad.
  rewrite Hin. cbn. rewrite Hreply. reflexivity.
Qed.

Lemma geo_query_node_answers (w : World) (state : State) (st : store)
    (input : value) (result : reply) :
  state !! "input" = Some input ->
  geo_chain w input = Ok result ->
  exists out st', geo_query_node w state st = (Ok out, st').
Proof.
  intros Hin Hreply.
  destruct (Py.contains "ASK_LOCATION" (Py.strip (answer_text result))) eqn:Hl.
  - rewrite (geo_query_node_sentinel _ _ _ _ _ Hin Hreply (or_introl Hl)).
    eauto.
  - destruct (Py.contains "ASK_ANALYSIS" (Py.strip (answer_text result)))
      eqn:Ha.
    + rewrite (geo_query_node_sentinel _ _ _ _ _ Hin Hreply (or_intror Ha)).
      eauto.
    + rewrite (geo_query_node_parsed _ _ _ _ _ Hin Hreply Hl Ha). eauto.
Qed.


(** ** The Producer when the platform half answers *)

(** Once the three layers are on the map, the Producer returns the
    narrative with the map, or falls back on the inner [except], which adds
    the marker layer once more. *)
Lemma flood_vulnerability_after_layers (w : World)
    (lat lon location_name : value) (st : store) (m0 : list layer)
    (base flood elev marker : layer) :
  platform_layers (platform w) lat lon m0 base flood elev marker ->
  flood_vulnerability w lat lon location_name st
  = match narrative w lat lon location_name with
    | Ok text =>
        (Ok (VStr text, VMap (m0 ++ [base; flood; elev; marker])),
         Store (calls st) (m0 ++ [base; flood; elev; marker]))
    | Raise e =>
        match add_layer (platform w)
                (length (m0 ++ [base; flood; elev; marker]))
                "Selected Location" with
        | Ok again =>
            (Ok (VStr (basic_map_text w lat lon e),
                 VMap (m0 ++ [base; flood; elev; marker; again])),
             Store (calls st) (m0 ++ [base; flood; elev; marker; again]))
        | Raise e' =>
            (Ok (VStr ("Error in flood_vulnerability: " +:+ e'), VNone),
             Store (calls st) (m0 ++ [base; flood; elev; marker]))
        end
    end.
Proof.
  intros (Hmap & Hbase & Hpoint & Hflood & Hl1 & Helev & Hl2 & Hl3).
  unfold flood_vulnerability, narrative, basic_map_text.
  repeat progress run_monad.
  rewrite Hmap. cbn [map_layers calls].
  rewrite Hbase. cbn [map_layers calls].
  rewrite Hpoint, Hflood. cbn [map_layers calls].
  rewrite Hl1. cbn [map_layers calls].
  rewrite Helev. cbn [map_layers calls].
  rewrite <- (app_assoc m0 [base] [flood]). cbn [app].
  rewrite Hl2. cbn [map_layers calls].
  rewrite <- (app_assoc m0 [base; flood] [elev]). cbn [app].
  rewrite Hl3. cbn [map_layers calls].
  rewrite <- (app_assoc m0 [base; flood; elev] [marker]). cbn [app].
  destruct (reduce_region (platform w)) as [stats|e]; cbn [map_layers calls].
  - destruct (risk _) as [tier|e]; cbn [map_layers calls].
    + destruct (analysis_text _ _ _ _ _ _ _) as [text|e];
        cbn [map_layers calls].
      * destruct (center_object (platform w)) as [[]|e];
          cbn [map_layers calls]; [reflexivity|].
        destruct (add_layer (platform w)
                    (length (m0 ++ [base; flood; elev; marker])) _);
          cbn [map_layers calls];
          rewrite <- ?(app_assoc m0 [base; flood; elev; marker]); reflexivity.
      * destruct (add_layer (platform w)
                    (length (m0 ++ [base; flood; elev; marker])) _);
          cbn [map_layers calls];
          rewrite <- ?(app_assoc m0 [base; flood; elev; marker]); reflexivity.
    + destruct (add_layer (platform w)
                    (length (m0 ++ [base; flood; elev; marker])) _);
          cbn [map_layers calls];
        rewrite <- ?(app_assoc m0 [base; flood; elev; marker]); reflexivity.
  - destruct (add_layer (platform w)
                    (length (m0 ++ [base; flood; elev; marker])) _);
          cbn [map_layers calls];
      rewrite <- ?(app_assoc m0 [base; flood; elev; marker]); reflexivity.
Qed.

(** ** The node around the Producer *)

(** With two non-zero float coordinates the node calls the Producer once,
    with the coordinates and the label of the state, and stores what it
    returns. *)
Lemma flood_node_invokes (w : World) (state : State) (st : store)
    (a b : float) (produced : value * value) (st' : store) :
  state !! "lat" = Some (VFloat a) ->
  state !! "lon" = Some (VFloat b) ->
  (a =? 0)%float = false -> (b =? 0)%float = false ->
  flood_vulnerability w (VFloat a) (VFloat b)
    (get_or state "location" (VStr "Selected Location"))
    (Store (calls st
            ++ [CallFloodVulnerability (VFloat a) (VFloat b)
                  (get_or state "location" (VStr "Selected Location"))])
       (map_layers st))
  = (Ok produced, st') ->
  flood_vulnerability_node w state st
  = (Ok (<["map_data" :=
             node_map_data (VFloat a) (VFloat b)
               (get_or state "location" (VStr "Selected Location"))
               (snd produced)]>
           (<["map_object" := snd produced]>
              (<["final_result" := fst produced]> state))),
     st').
Proof.
  intros Hlat Hlon Ha Hb Hrun.
  unfold flood_vulnerability_node, get, item. rewrite Hlat, Hlon.
  cbn [default from_option id truthy]. rewrite Ha, Hb. cbn [negb orb].
  run_monad. cbn [fixed]. rewrite Hrun. cbn [fst snd].
  unfold node_map_data.
  destruct (layer_url_at (snd produced) 2); [|reflexivity].
  destruct (layer_url_at (snd produced) 3); [|reflexivity].
  destruct (layer_url_at (snd produced) 4); reflexivity.
Qed.




(** ** The channels of the graph *)

Lemma channels_lookup (d : State) (k : string) :
  channels d !! k = if in_schema k then d !! k else None.
Proof.
  unfold channels. destruct (in_schema k) eqn:E.
  - destruct (d !! k) as [v|] eqn:Hk.
    + apply map_lookup_filter_Some. split; [exact Hk|].
      cbn [fst]. rewrite E. exact I.
    + apply map_lookup_filter_None. left. exact Hk.
  - apply map_lookup_filter_None. right. intros v _. cbn [fst]. rewrite E. tauto.
Qed.

Lemma update_lookup (state returned : State) (k : string) :
  update state returned !! k
  = if in_schema k
    then match returned !! k with
         | Some v => Some v
         | None => state !! k
         end
    else state !! k.
Proof.
  unfold update. rewrite lookup_union, channels_lookup.
  destruct (in_schema k); [|apply (left_id None _)].
  destruct (returned !! k), (state !! k); reflexivity.
Qed.

(** A node that returns the state it was given leaves the channels as they
    are. *)
Lemma update_same (state : State) : update state state = state.
Proof.
  apply map_eq. intros k. rewrite update_lookup.
  destruct (in_schema k), (state !! k); reflexivity.
Qed.

(** A field of the schema that a node writes is written to its channel. *)
Lemma update_insert (state returned : State) (k : string) (v : value) :
  in_schema k = true ->
  update state (<[k := v]> returned) = <[k := v]> (update state returned).
Proof.
  intros Hk. apply map_eq. intros j. rewrite update_lookup.
  destruct (decide (j = k)) as [->|Hne].
  - rewrite Hk, !lookup_insert_eq. reflexivity.
  - rewrite !lookup_insert_ne by congruence. rewrite update_lookup.
    reflexivity.
Qed.

(** A key outside the schema that a node writes is dropped. *)
Lemma update_dropped (state returned : State) (k : string) (v : value) :
  in_schema k = false ->
  update state (<[k := v]> returned) = update state returned.
Proof.
  intros Hk. apply map_eq. intros j. rewrite !update_lookup.
  destruct (decide (j = k)) as [->|Hne].
  - rewrite Hk. reflexivity.
  - rewrite lookup_insert_ne by congruence. reflexivity.
Qed.

Lemma channels_schema (d : State) (k : string) :
  in_schema k = true -> channels d !! k = d !! k.
Proof. intros Hk. rewrite channels_lookup, Hk. reflexivity. Qed.

Lemma channels_fresh (text : string) : channels (fresh text) = fresh text.
Proof.
  apply map_eq. intros k. rewrite channels_lookup. unfold fresh.
  destruct (decide (k = "input")) as [->|Hne]; [reflexivity|].
  rewrite lookup_singleton_ne by congruence.
  destruct (in_schema k); reflexivity.
Qed.
(** ** The graph *)

Lemma run_step (fuel : nat) (w : World) (n : Node.t) (state : State) :
  run (S fuel) w n state
  = (let* _ := log (Enter n) in
     let* returned := run_node w n state in
     let* next := lift (route n (update state returned)) in
     match next with
     | None => ret (update state returned)
     | Some n' => run fuel w n' (update state returned)
     end).
Proof. reflexivity. Qed.

(** The conditional edge, on the state the classifier returns. *)
Lemma route_intent (state : State) (v : value) :
  route Node.intent (<["intent" := v]> state)
  = Ok (if is_str v "normal" then None else Some Node.geo_query).
Proof. unfold route, item. rewrite lookup_insert_eq. reflexivity. Qed.

(** The first step of the graph, when the provider answers. *)
Lemma graph_invoke_intent (w : World) (state : State) (input : value)
    (result : reply) :
  state !! "input" = Some input ->
  intent_chain w input = Ok result ->
  graph_invoke w state
  = if is_str (stored_intent result) "normal"
    then (Ok (<["intent" := stored_intent result]> (channels state)),
          Store [Enter Node.intent; CallIntentChain input] [])
    else run 24 w Node.geo_query
           (<["intent" := stored_intent result]> (channels state))
           (Store [Enter Node.intent; CallIntentChain input] []).
Proof.
  intros Hin Hreply.
  assert (channels state !! "input" = Some input) as Hin'
      by (rewrite channels_schema by reflexivity; exact Hin).
  unfold graph_invoke. change 25%nat with (S 24). rewrite run_step.
  unfold bind at 1. unfold log at 1. unfold bind at 1.
  cbn [run_node]. rewrite (intent_node_answers _ _ _ _ _ Hin' Hreply).
  fold (stored_intent result).
  rewrite update_insert, update_same by reflexivity.
  unfold bind, lift. rewrite route_intent.
  destruct (is_str (stored_intent result) "normal"); reflexivity.
Qed.

(** On the dict of an [LLMChain] the classifier finds the text: trimmed, the
    word "normal" ends the turn. *)
Example dict_reply_example :
  graph_invoke (legacy " normal
") (fresh "hello")
  = (Ok (<["intent" := VStr "normal"]> (fresh "hello")),
     Store [Enter Node.intent; CallIntentChain (VStr "hello")] []).
Proof. vm_compute. reflexivity. Qed.

(** What [str] shows of a message starts with its content field, and so is
    never one of the two words the classifier admits. *)
Lemma shown_message_not_admitted (shown : string) :
  Py.startswith shown "content=" = true ->
  String.eqb (strip_if (Some shown)) "normal" = false
  /\ String.eqb (strip_if (Some shown)) "query" = false.
Proof.
  destruct shown as [|c rest]; [discriminate|].
  cbn [Py.startswith]. intros H. apply andb_true_iff in H as [H _].
  apply Ascii.eqb_eq in H. subst c. split; reflexivity.
Qed.

(** C2. The chain is a prompt piped into a chat model, so that its reply
    is a message, not a dict; the classifier then reads [str(result)], which
    shows the message's fields, and not its content as the extractor does.
    Whatever the content, "normal" included, the intent stored is [None],
    the edge out of [intent] goes to [geo_query], and the turn goes on from
    there. *)
Theorem message_reply_never_ends_turn (w : World) (state : State)
    (input : value) (content shown : string) :
  state !! "input" = Some input ->
  intent_chain w input = Ok (RMessage content shown) ->
  Py.startswith shown "content=" = true ->
  fst (intent_node w state empty_store) = Ok (<["intent" := VNone]> state)
  /\ route Node.intent (<["intent" := VNone]> (channels state))
     = Ok (Some Node.geo_query)
  /\ graph_invoke w state
     = run 24 w Node.geo_query (<["intent" := VNone]> (channels state))
         (Store [Enter Node.intent; CallIntentChain input] []).
Proof.
  intros Hin Hreply Hshown.
  assert (stored_intent (RMessage content shown) = VNone) as Hstored.
  { unfold stored_intent. cbn [intent_text].
    destruct (shown_message_not_admitted shown Hshown) as [-> ->].
    reflexivity. }
  split.
  { rewrite (intent_node_answers _ _ _ _ _ Hin Hreply).
    fold (stored_intent (RMessage content shown)). rewrite Hstored.
    reflexivity. }
  split; [apply route_intent|].
  rewrite (graph_invoke_intent _ _ _ _ Hin Hreply), Hstored. reflexivity.
Qed.

Lemma message_reply_never_ends_turn_witness :
  Py.lower (Py.strip "normal") = "normal"
  /\ fst (intent_node (demo "normal" "ASK_LOCATION" ∅) (fresh "hello")
            empty_store)
     = Ok (<["intent" := VNone]> (fresh "hello"))
  /\ graph_invoke (demo "normal" "ASK_LOCATION" ∅) (fresh "hello")
     = run 24 (demo "normal" "ASK_LOCATION" ∅) Node.geo_query
         (<["intent" := VNone]> (channels (fresh "hello")))
         (Store [Enter Node.intent; CallIntentChain (VStr "hello")] [])
  /\ calls (snd (graph_invoke (demo "normal" "ASK_LOCATION" ∅)
                   (fresh "hello")))
     = [Enter Node.intent; CallIntentChain (VStr "hello");
        Enter Node.geo_query; CallGeoChain (VStr "hello");
        Enter Node.location_helper; Enter Node.flood_vulnerability].
Proof.
  destruct (message_reply_never_ends_turn (demo "normal" "ASK_LOCATION" ∅)
              (fresh "hello") (VStr "hello") "normal"
              "content='normal' additional_kwargs={} response_metadata={}"
              eq_refl eq_refl eq_refl) as (Hstored & _ & Hrun).
  split; [reflexivity|]. split; [exact Hstored|]. split; [exact Hrun|].
  vm_compute. reflexivity.
Defined.

Lemma classified_lookup (text : string) (v : value) (k : string) :
  k <> "intent" -> k <> "input" ->
  (<["intent" := v]> (fresh text)) !! k = None.
Proof.
  intros H1 H2. unfold fresh.
  rewrite lookup_insert_ne by congruence.
  apply lookup_singleton_ne. congruence.
Qed.

Lemma classified_input (text : string) (v : value) :
  (<["intent" := v]> (fresh text)) !! "input" = Some (VStr text).
Proof.
  unfold fresh. rewrite lookup_insert_ne by discriminate.
  apply lookup_singleton_eq.
Qed.

(** C1. The extractor itself gives the state back on a sentinel, but the edge
    out of [geo_query] does not look at the state: on a fresh turn that the
    classifier did not call "normal", a reply with "ASK_LOCATION" or
    "ASK_ANALYSIS" is followed by the [location_helper] node and then by the
    [flood_vulnerability] node, which writes the "Missing coordinates"
    result. Neither the geocoder nor the Producer is called, and location
    and analysis stay absent. *)
Theorem sentinel_turn_runs_on (w : World) (text : string)
    (classified answered : reply) :
  intent_chain w (VStr text) = Ok classified ->
  is_str (stored_intent classified) "normal" = false ->
  geo_chain w (VStr text) = Ok answered ->
  Py.contains "ASK_LOCATION" (Py.strip (answer_text answered)) = true
  \/ Py.contains "ASK_ANALYSIS" (Py.strip (answer_text answered)) = true ->
  (forall state, route Node.geo_query state = Ok (Some Node.location_helper))
  /\ exists out,
      graph_invoke w (fresh text)
      = (Ok out,
         Store [Enter Node.intent; CallIntentChain (VStr text);
                Enter Node.geo_query; CallGeoChain (VStr text);
                Enter Node.location_helper; Enter Node.flood_vulnerability] [])
      /\ out = <["final_result" := VStr missing_coordinates]>
                 (<["intent" := stored_intent classified]> (fresh text))
      /\ out !! "final_result"
         = Some (VStr "Missing coordinates for flood analysis")
      /\ out !! "location" = None
      /\ out !! "analysis" = None.
Proof.
  intros Hintent Hnot Hgeo Hsentinel. split; [reflexivity|].
  eexists. split; [|split; [reflexivity|]].
  - rewrite (graph_invoke_intent w (fresh text) (VStr text) classified)
      by (try apply lookup_singleton_eq; assumption).
    rewrite Hnot, channels_fresh.
    change 24%nat with (S (S (S 21))).
    rewrite run_step. unfold bind at 1. unfold log at 1. unfold bind at 1.
    cbn [run_node calls map_layers app].
    rewrite (geo_query_node_sentinel w _ _ (VStr text) answered
               (classified_input _ _) Hgeo Hsentinel).
    rewrite update_same.
    unfold bind at 1. unfold lift at 1. cbn [route calls map_layers app].
    rewrite run_step. unfold bind at 1. unfold log at 1. unfold bind at 1.
    cbn [run_node calls map_layers app].
    rewrite location_helper_cases, classified_lookup by discriminate.
    rewrite update_same.
    unfold bind at 1. unfold lift at 1. cbn [route calls map_layers app].
    rewrite run_step. unfold bind at 1. unfold log at 1. unfold bind at 1.
    cbn [run_node calls map_layers app].
    rewrite flood_node_guard
      by (unfold get; rewrite classified_lookup by discriminate; reflexivity).
    unfold no_point_state.
    rewrite update_dropped, update_insert, update_same by reflexivity.
    reflexivity.
  - split; [|split].
    + apply lookup_insert_eq.
    + rewrite lookup_insert_ne by discriminate.
      apply classified_lookup; discriminate.
    + rewrite lookup_insert_ne by discriminate.
      apply classified_lookup; discriminate.
Qed.

Lemma sentinel_turn_runs_on_witness :
  exists out,
    graph_invoke (demo "query" "ASK_LOCATION" ∅) (fresh "Is it flood prone?")
    = (Ok out,
       Store [Enter Node.intent; CallIntentChain (VStr "Is it flood prone?");
              Enter Node.geo_query; CallGeoChain (VStr "Is it flood prone?");
              Enter Node.location_helper; Enter Node.flood_vulnerability] [])
    /\ out !! "final_result"
       = Some (VStr "Missing coordinates for flood analysis").
Proof.
  destruct (sentinel_turn_runs_on (demo "query" "ASK_LOCATION" ∅)
              "Is it flood prone?" (message "query")
              (message "ASK_LOCATION")
              eq_refl eq_refl eq_refl (or_introl eq_refl))
    as (_ & out & Hrun & _ & Hres & _).
  exists out. split; [exact Hrun | exact Hres].
Defined.

(** ** The narrative *)

Lemma contains_append_r (p x s : string) :
  Py.contains p s = true -> Py.contains p (x +:+ s) = true.
Proof.
  intros H. induction x as [|c x IH]; [exact H|].
  change (String c x +:+ s) with (String c (x +:+ s)).
  cbn [Py.contains]. rewrite IH. apply orb_true_r.
Qed.

Lemma startswith_append (s y : string) : Py.startswith (s +:+ y) s = true.
Proof.
  induction s as [|c s IH]; [destruct y; reflexivity|].
  change (String c s +:+ y) with (String c (s +:+ y)).
  cbn [Py.startswith]. rewrite Ascii.eqb_refl. exact IH.
Qed.

(** The narrative names the tier it is given, and carries its
    recommendation. *)
Lemma analysis_text_low (w : World) (lat lon location_name flood_value : value)
    (text : string) :
  analysis_text w lat lon location_name "Low" flood_value recommendation_low
  = Ok text ->
  Py.contains "**Flood Risk Level:** Low" text = true
  /\ Py.contains recommendation_low text = true.
Proof.
  unfold analysis_text.
  destruct (fixed w 4 lat) as [lat4|]; [|discriminate].
  destruct (fixed w 4 lon) as [lon4|]; [|discriminate].
  destruct (fixed w 2 flood_value) as [depth2|]; [|discriminate].
  intros [= <-]. split.
  - do 6 apply contains_append_r. reflexivity.
  - do 11 apply contains_append_r.
    apply startswith_contains, startswith_append.
Qed.

(** Without a ['depth'] entry the depth value is the integer 0, which is in
    the "Low" tier. *)
Lemma risk_of_default :
  risk (VInt 0) = Ok ("Low", recommendation_low).
Proof. reflexivity. Qed.

(** A number that formats is formatted. *)
Lemma fixed_formattable (w : World) (digits : nat) (v : value) :
  formattable v = true -> fixed w digits v = Ok (format_fixed w digits v).
Proof.
  destruct v as [| | n | | | | |]; cbn [formattable fixed];
    try discriminate; try reflexivity.
  destruct (float_of_int_overflows n); [discriminate|reflexivity].
Qed.

(** C10, as the code has it. When the platform answers every request, the
    coordinates are numbers that format, and its zonal statistics hold no
    ['depth'] key, the Producer takes 0 for the depth: it returns the
    narrative built for the depth 0, which reports the risk level "Low" and
    carries the recommendation of that tier, along with the map, as if the
    statistic had been there. *)
Theorem missing_depth_reads_low (w : World) (lat lon location_name : value)
    (st : store) (m0 : list layer) (base flood elev marker : layer)
    (stats : gmap string value) :
  platform_answers (platform w) lat lon m0 base flood elev marker stats ->
  formattable lat = true -> formattable lon = true ->
  stats !! "depth" = None ->
  exists text,
    flood_vulnerability w lat lon location_name st
    = (Ok (VStr text, VMap (m0 ++ [base; flood; elev; marker])),
       Store (calls st) (m0 ++ [base; flood; elev; marker]))
    /\ analysis_text w lat lon location_name "Low" (VInt 0) recommendation_low
       = Ok text
    /\ Py.contains "**Flood Risk Level:** Low" text = true
    /\ Py.contains recommendation_low text = true.
Proof.
  intros (Hmap & Hbase & Hpoint & Hflood & Hl1 & Helev & Hl2 & Hl3 & Hstats
          & Hcenter) Hlat Hlon Hdepth.
  assert (exists text,
             analysis_text w lat lon location_name "Low" (VInt 0)
               recommendation_low = Ok text) as [text Htext].
  { unfold analysis_text.
    rewrite (fixed_formattable _ _ _ Hlat), (fixed_formattable _ _ _ Hlon).
    rewrite (fixed_formattable w 2 (VInt 0)) by reflexivity. eauto. }
  exists text. split; [|split; [exact Htext|]].
  - rewrite (flood_vulnerability_after_layers w lat lon location_name st m0
               base flood elev marker)
      by (repeat split; assumption).
    unfold narrative. rewrite Hstats, Hdepth. cbn [default from_option id].
    rewrite risk_of_default. cbn [fst snd].
    rewrite Htext, Hcenter. reflexivity.
  - exact (analysis_text_low _ _ _ _ _ _ Htext).
Qed.

Lemma missing_depth_reads_low_witness :
  exists text,
    fst (flood_vulnerability (demo "query" "Location: Chennai" ∅)
           (VFloat 13.0836939) (VFloat 80.270186) (VStr "Chennai") empty_store)
    = Ok (VStr text,
          VMap [Layer "OpenStreetMap" (Some "osm");
                Layer "SATELLITE" (Some "satellite");
                Layer "Flood Hazard (0-1m depth)"
                  (Some "tiles/Flood Hazard (0-1m depth)");
                Layer "Elevation (m)" (Some "tiles/Elevation (m)");
                Layer "Selected Location" (Some "tiles/Selected Location")])
    /\ Py.contains "**Flood Risk Level:** Low" text = true.
Proof.
  destruct (missing_depth_reads_low (demo "query" "Location: Chennai" ∅)
              (VFloat 13.0836939) (VFloat 80.270186) (VStr "Chennai")
              empty_store
              [Layer "OpenStreetMap" (Some "osm")]
              (Layer "SATELLITE" (Some "satellite"))
              (Layer "Flood Hazard (0-1m depth)"
                 (Some "tiles/Flood Hazard (0-1m depth)"))
              (Layer "Elevation (m)" (Some "tiles/Elevation (m)"))
              (Layer "Selected Location" (Some "tiles/Selected Location"))
              ∅)
    as (text & Hrun & _ & Hlow & _).
  - repeat split.
  - reflexivity.
  - reflexivity.
  - reflexivity.
  - exists text. rewrite Hrun. split; [reflexivity | exact Hlow].
Defined.

(** C10, the claim as worded fails: statistics whose ['depth'] is [None],
    the platform's answer for a region without data, hold no depth value,
    yet 0 is not substituted: the comparison with 0.5 raises, and the text
    returned is the "Basic map" one with that error, not a narrative with
    the risk level "Low". *)
Lemma null_depth_counterexample :
  ({[ "depth" := VNone ]} : gmap string value) !! "depth" = Some VNone
  /\ produced_text
       (flood_vulnerability
          (demo "query" "Location: Chennai" {[ "depth" := VNone ]})
          (VFloat 13.0836939) (VFloat 80.270186) (VStr "Chennai")
          empty_store)
     = Some (VStr "Basic map for (#, #). Error in flood analysis: '>' not supported between instances of 'NoneType' and 'float'")
  /\ Py.contains "**Flood Risk Level:** Low"
       "Basic map for (#, #). Error in flood analysis: '>' not supported between instances of 'NoneType' and 'float'"
     = false.
Proof. repeat split. Qed.

(** * Further properties of the workflow *)

(** ** The graph has no loop *)

Lemma run_flood_fuel (fuel : nat) (w : World) (state : State) (st : store) :
  run (S fuel) w Node.flood_vulnerability state st
  = run 1 w Node.flood_vulnerability state st.
Proof.
  rewrite !run_step. unfold bind, log, lift.
  destruct (run_node w Node.flood_vulnerability state _) as [[out|e] st'];
    reflexivity.
Qed.

Lemma run_location_fuel (fuel : nat) (w : World) (state : State) (st : store) :
  run (S (S fuel)) w Node.location_helper state st
  = run 2 w Node.location_helper state st.
Proof.
  rewrite (run_step (S fuel)), (run_step 1). unfold bind, log, lift.
  destruct (run_node w Node.location_helper state _) as [[out|e] st'];
    [|reflexivity].
  cbn [route]. apply run_flood_fuel.
Qed.

Lemma run_geo_fuel (fuel : nat) (w : World) (state : State) (st : store) :
  run (S (S (S fuel))) w Node.geo_query state st
  = run 3 w Node.geo_query state st.
Proof.
  rewrite (run_step (S (S fuel))), (run_step 2). unfold bind, log, lift.
  destruct (run_node w Node.geo_query state _) as [[out|e] st'];
    [|reflexivity].
  cbn [route]. apply run_location_fuel.
Qed.

Lemma run_intent_fuel (fuel : nat) (w : World) (state : State) (st : store) :
  run (4 + fuel) w Node.intent state st = run 4 w Node.intent state st.
Proof.
  cbn [Nat.add]. rewrite (run_step (S (S (S fuel)))), (run_step 3).
  unfold bind, log, lift.
  destruct (run_node w Node.intent state _) as [[out|e] st']; [|reflexivity].
  cbn [route]. destruct (item _ "intent") as [v|e]; [|reflexivity].
  destruct (is_str v "normal"); [reflexivity|]. apply run_geo_fuel.
Qed.

(** The Producer makes no call of the log: it talks to the platform only. *)
Lemma flood_vulnerability_calls (w : World) (lat lon location_name : value)
    (st : store) :
  calls (snd (flood_vulnerability w lat lon location_name st)) = calls st.
Proof.
  unfold flood_vulnerability. run_monad.
  repeat (case_outcome; cbn -[analysis_text risk py_str String.append]);
    reflexivity.
Qed.

Lemma entered_call (log : list event) (ev : event) :
  (forall n, ev <> Enter n) -> entered (log ++ [ev]) = entered log.
Proof.
  intros H. unfold entered. rewrite omap_app. cbn [omap].
  destruct ev; try apply app_nil_r. destruct (H n eq_refl).
Qed.

Lemma entered_enter (log : list event) (n : Node.t) :
  entered (log ++ [Enter n]) = (entered log ++ [n])%list.
Proof. unfold entered. rewrite omap_app. reflexivity. Qed.

(** A node enters no node. *)
Lemma run_node_entered (w : World) (n : Node.t) (state : State) (st : store) :
  entered (calls (snd (run_node w n state st))) = entered (calls st).
Proof.
  destruct n; cbn [run_node].
  - unfold intent_node, bind, lift, call, log, ret, item.
    destruct (state !! "input") as [input|]; [|reflexivity].
    cbn -[strip_if entered].
    destruct (intent_chain w input); cbn -[strip_if entered];
      apply entered_call; discriminate.
  - unfold geo_query_node, bind, lift, call, log, ret, item.
    destruct (state !! "input") as [input|]; [|reflexivity].
    cbn -[strip_if Py.contains Py.strip scan_lines Py.split entered].
    destruct (geo_chain w input) as [r|];
      cbn -[strip_if Py.contains Py.strip scan_lines Py.split entered];
      [|apply entered_call; discriminate].
    destruct (Py.contains "ASK_LOCATION" _);
      [apply entered_call; discriminate|].
    destruct (Py.contains "ASK_ANALYSIS" _);
      [apply entered_call; discriminate|].
    destruct (scan_lines _ _); cbn [snd calls];
      apply entered_call; discriminate.
  - rewrite location_helper_cases.
    destruct (state !! "location") as [[| | | |s| | |]|]; try reflexivity.
    destruct (Py.is_empty s); [reflexivity|]. cbv zeta.
    destruct (geocode w _) as [[[lat lon]|]|]; cbn [snd calls];
      apply entered_call; discriminate.
  - unfold flood_vulnerability_node.
    destruct (_ || _); [reflexivity|]. run_monad.
    destruct (item state "lat") as [lat|]; [|reflexivity].
    destruct (item state "lon") as [lon|]; [|reflexivity].
    destruct (fixed w 4 lat); [|reflexivity].
    destruct (fixed w 4 lon); [|reflexivity].
    match goal with
    | |- context [flood_vulnerability ?w ?a ?b ?l ?s] =>
        pose proof (flood_vulnerability_calls w a b l s) as Hcalls;
        destruct (flood_vulnerability_total w a b l s)
          as (text & map_obj & st' & Hrun);
        rewrite Hrun in Hcalls |- *
    end.
    cbn [fst snd calls] in *.
    destruct (layer_url_at map_obj 2); cbn [snd];
      [destruct (layer_url_at map_obj 3); cbn [snd];
       [destruct (layer_url_at map_obj 4); cbn [snd]|]|];
      rewrite Hcalls; apply entered_call; discriminate.
Qed.

(** From a node on, the nodes entered are those the edges lead to, up to the
    one that raises or ends the turn. *)
Lemma run_flood_entered (fuel : nat) (w : World) (state : State)
    (st : store) :
  entered (calls (snd (run (S fuel) w Node.flood_vulnerability state st)))
  = (entered (calls st) ++ [Node.flood_vulnerability])%list.
Proof.
  rewrite run_step. unfold bind at 1. unfold log at 1. unfold bind at 1.
  pose proof (run_node_entered w Node.flood_vulnerability state
                (Store (calls st ++ [Enter Node.flood_vulnerability])
                   (map_layers st))) as H.
  cbn [calls] in H. rewrite entered_enter in H.
  destruct (run_node w Node.flood_vulnerability state _) as [[out|e] st'];
    exact H.
Qed.

Lemma run_location_entered (fuel : nat) (w : World) (state : State)
    (st : store) :
  exists k,
    (1 <= k <= 2)%nat
    /\ entered (calls (snd (run (S (S fuel)) w Node.location_helper state st)))
       = (entered (calls st)
          ++ take k [Node.location_helper; Node.flood_vulnerability])%list.
Proof.
  rewrite run_step. unfold bind at 1. unfold log at 1. unfold bind at 1.
  pose proof (run_node_entered w Node.location_helper state
                (Store (calls st ++ [Enter Node.location_helper])
                   (map_layers st))) as H.
  cbn [calls] in H. rewrite entered_enter in H.
  destruct (run_node w Node.location_helper state _) as [[out|e] st'];
    cbn [snd] in H.
  - exists 2%nat. split; [lia|]. unfold bind, lift. cbn [route].
    rewrite run_flood_entered, H, <- app_assoc. reflexivity.
  - exists 1%nat. split; [lia|]. exact H.
Qed.

Lemma run_geo_entered (fuel : nat) (w : World) (state : State) (st : store) :
  exists k,
    (1 <= k <= 3)%nat
    /\ entered (calls (snd (run (S (S (S fuel))) w Node.geo_query state st)))
       = (entered (calls st)
          ++ take k [Node.geo_query; Node.location_helper;
                     Node.flood_vulnerability])%list.
Proof.
  rewrite run_step. unfold bind at 1. unfold log at 1. unfold bind at 1.
  pose proof (run_node_entered w Node.geo_query state
                (Store (calls st ++ [Enter Node.geo_query])
                   (map_layers st))) as H.
  cbn [calls] in H. rewrite entered_enter in H.
  destruct (run_node w Node.geo_query state _) as [[out|e] st'];
    cbn [snd] in H.
  - unfold bind, lift. cbn [route].
    destruct (run_location_entered fuel w (update state out) st')
      as (k & Hk & ->).
    exists (S k). split; [lia|]. rewrite H, <- app_assoc. reflexivity.
  - exists 1%nat. split; [lia|]. exact H.
Qed.

(** X2. The graph has no loop. In a turn the nodes entered are [intent],
    [geo_query], [location_helper] and [flood_vulnerability] in that order,
    up to the one that raises or ends the turn: no node is entered twice,
    none is skipped. Four steps are all a turn can take, and its outcome
    is the same under any larger bound on the number of steps. *)
Theorem nodes_entered_in_order (fuel : nat) (w : World) (state : State)
    (st : store) :
  run (4 + fuel) w Node.intent state st = run 4 w Node.intent state st
  /\ exists k,
      (1 <= k <= 4)%nat
      /\ entered (calls (snd (run (4 + fuel) w Node.intent state st)))
         = (entered (calls st) ++ take k path)%list.
Proof.
  split; [apply run_intent_fuel|].
  rewrite run_intent_fuel, run_step.
  unfold bind at 1. unfold log at 1. unfold bind at 1.
  pose proof (run_node_entered w Node.intent state
                (Store (calls st ++ [Enter Node.intent])
                   (map_layers st))) as H.
  cbn [calls] in H. rewrite entered_enter in H.
  destruct (run_node w Node.intent state _) as [[out|e] st'];
    cbn [snd] in H.
  - unfold bind at 1. unfold lift at 1.
    destruct (route Node.intent (update state out)) as [[next|]|e] eqn:Hroute.
    + assert (next = Node.geo_query) as ->.
      { unfold route in Hroute.
        destruct (item _ "intent") as [v|]; [|discriminate].
        destruct (is_str v "normal"); congruence. }
      destruct (run_geo_entered 0 w (update state out) st')
        as (k & Hk & ->).
      exists (S k). split; [lia|]. rewrite H, <- app_assoc. reflexivity.
    + exists 1%nat. split; [lia|]. exact H.
    + exists 1%nat. split; [lia|]. exact H.
  - exists 1%nat. split; [lia|]. exact H.
Qed.

(** ** What can make a turn fail *)

Lemma run_node_keeps (w : World) (n : Node.t) (state out : State)
    (st : store) (k : string) :
  fst (run_node w n state st) = Ok out ->
  k ∉ own_keys n -> get out k = get state k.
Proof.
  intros H Hk. unfold get. f_equal. revert k Hk.
  apply frame_of_shape. destruct n; cbn [run_node] in H.
  - apply intent_node_shape in H as [v ->]. right; left; eauto.
  - apply geo_query_node_shape in H as [->|(l & a & ->)]; [auto|].
    right; right; left; eauto.
  - apply location_helper_node_shape in H as [->|(lat & lon & ->)]; [auto|].
    right; right; right; left; eauto.
  - apply flood_vulnerability_node_shape in H as [->|(r & m & d & ->)].
    + right; right; right; right; left. auto.
    + right; right; right; right; right. eauto.
Qed.

(** What the first three nodes return is what the channels hold after
    them: they write fields of the schema only. *)
Lemma update_run_node (w : World) (n : Node.t) (state out : State)
    (st : store) :
  n <> Node.flood_vulnerability ->
  fst (run_node w n state st) = Ok out ->
  update state out = out.
Proof.
  intros Hn H. destruct n; cbn [run_node] in H; [| | |congruence].
  - apply intent_node_shape in H as [v ->].
    rewrite update_insert, update_same by reflexivity. reflexivity.
  - apply geo_query_node_shape in H as [->|(l & a & ->)];
      [apply update_same|].
    rewrite !update_insert, update_same by reflexivity. reflexivity.
  - apply location_helper_node_shape in H as [->|(lat & lon & ->)];
      [apply update_same|].
    rewrite !update_insert, update_same by reflexivity. reflexivity.
Qed.

Lemma coordinates_not_own (n : Node.t) :
  n <> Node.location_helper ->
  ("lat" ∉ own_keys n) /\ ("lon" ∉ own_keys n).
Proof.
  destruct n; intros Hn; try congruence; cbn [own_keys];
    rewrite ?not_elem_of_cons; repeat split; try discriminate;
    apply not_elem_of_nil.
Qed.

(** The resolver leaves coordinates of the declared type. *)
Lemma location_helper_typed (w : World) (state out : State) (st : store) :
  is_coordinate (get state "lat") = true ->
  is_coordinate (get state "lon") = true ->
  fst (location_helper_node w state st) = Ok out ->
  is_coordinate (get out "lat") = true /\ is_coordinate (get out "lon") = true.
Proof.
  intros Hlat Hlon. rewrite location_helper_cases.
  destruct (state !! "location") as [[| | | |s| | |]|];
    try (intros [= <-]; auto).
  destruct (Py.is_empty s); [intros [= <-]; auto|].
  cbv zeta. destruct (geocode w _) as [[[lat lon]|]|e];
    intros [= <-]; auto.
  unfold get. rewrite lookup_insert_ne by discriminate.
  rewrite !lookup_insert_eq. split; reflexivity.
Qed.

(** X3. On a state that has an input and coordinates of the declared type,
    the only exceptions that leave [graph.invoke] are those of the completion
    provider: the geocoder and the geospatial platform cannot make a turn
    fail. *)
Theorem turn_fails_only_through_provider (w : World) (state : State)
    (input : value) (e : string) :
  state !! "input" = Some input ->
  is_coordinate (get state "lat") = true ->
  is_coordinate (get state "lon") = true ->
  fst (graph_invoke w state) = Raise e ->
  intent_chain w input = Raise e \/ geo_chain w input = Raise e.
Proof.
  intros Hin Hlat Hlon.
  assert (channels state !! "input" = Some input) as Hin0
      by (rewrite channels_schema by reflexivity; exact Hin).
  destruct (intent_chain w input) as [r1|e1] eqn:H1.
  - rewrite (graph_invoke_intent _ _ _ _ Hin H1).
    destruct (is_str (stored_intent r1) "normal"); [discriminate|].
    set (s1 := <["intent" := stored_intent r1]> (channels state)).
    assert (s1 !! "input" = Some input) as Hin1
        by (unfold s1; rewrite lookup_insert_ne by discriminate; exact Hin0).
    assert (get s1 "lat" = get state "lat" /\ get s1 "lon" = get state "lon")
      as [Hl1 Hl2]
        by (unfold s1, get; rewrite !lookup_insert_ne by discriminate;
            rewrite !channels_schema by reflexivity; auto).
    change 24%nat with (S (S (S 21))). rewrite run_step.
    unfold bind at 1. unfold log at 1. unfold bind at 1. cbn [run_node].
    destruct (geo_chain w input) as [r2|e2] eqn:H2.
    + destruct (geo_query_node_answers w s1 (Store
                  (calls (Store [Enter Node.intent; CallIntentChain input] [])
                   ++ [Enter Node.geo_query])
                  (map_layers (Store [Enter Node.intent; CallIntentChain input] [])))
                  input r2 Hin1 H2) as (s2 & st2 & Hgeo).
      rewrite Hgeo.
      assert (fst (run_node w Node.geo_query s1 (Store
                  (calls (Store [Enter Node.intent; CallIntentChain input] [])
                   ++ [Enter Node.geo_query])
                  (map_layers (Store [Enter Node.intent; CallIntentChain input] []))))
              = Ok s2) as Hkeep by (cbn [run_node]; rewrite Hgeo; reflexivity).
      destruct (coordinates_not_own Node.geo_query) as [Hk1 Hk2];
        [discriminate|].
      pose proof (run_node_keeps _ _ _ _ _ _ Hkeep Hk1) as Hs2lat.
      pose proof (run_node_keeps _ _ _ _ _ _ Hkeep Hk2) as Hs2lon.
      assert (update s1 s2 = s2) as Hup2
          by (eapply (update_run_node _ Node.geo_query);
              [discriminate|exact Hkeep]).
      rewrite Hup2.
      unfold bind at 1. unfold lift at 1. cbn [route].
      rewrite run_step.
      unfold bind at 1. unfold log at 1. unfold bind at 1. cbn [run_node].
      match goal with
      | |- context [location_helper_node w s2 ?s] =>
          destruct (location_helper_node_total w s2 s) as (s3 & st3 & Hloc);
          assert (is_coordinate (get s3 "lat") = true
                  /\ is_coordinate (get s3 "lon") = true) as [Ht1 Ht2]
              by (apply (location_helper_typed w s2 s3 s);
                  [congruence|congruence|rewrite Hloc; reflexivity]);
          assert (update s2 s3 = s3) as Hup
              by (apply (update_run_node w Node.location_helper s2 s3 s);
                  [discriminate|cbn [run_node]; rewrite Hloc; reflexivity]);
          rewrite Hloc, Hup
      end.
      unfold bind at 1. unfold lift at 1. cbn [route].
      rewrite run_step.
      unfold bind at 1. unfold log at 1. unfold bind at 1. cbn [run_node].
      match goal with
      | |- context [flood_vulnerability_node w s3 ?s] =>
          destruct (flood_vulnerability_node_total w s3 s Ht1 Ht2)
            as (s4 & st4 & text & Hflood & _);
          rewrite Hflood
      end.
      discriminate.
    + rewrite (surjective_pairing (geo_query_node w s1 _)).
      rewrite (geo_query_node_propagates _ _ _ _ _ Hin1 H2).
      intros [= <-]. right. reflexivity.
  - unfold graph_invoke. change 25%nat with (S 24). rewrite run_step.
    unfold bind at 1. unfold log at 1. unfold bind at 1. cbn [run_node].
    rewrite (surjective_pairing (intent_node w (channels state) _)).
    rewrite (intent_node_propagates _ _ _ _ _ Hin0 H1).
    intros [= <-]. left. reflexivity.
Qed.

Lemma turn_fails_only_through_provider_witness :
  fst (graph_invoke offline (fresh "hello")) = Raise "offline"
  /\ (intent_chain offline (VStr "hello") = Raise "offline"
      \/ geo_chain offline (VStr "hello") = Raise "offline").
Proof.
  split; [reflexivity|].
  apply (turn_fails_only_through_provider offline (fresh "hello")
           (VStr "hello") "offline"); reflexivity.
Defined.

(** ** Replies the extractor does not expect *)

(** X4. A reply without a sentinel that is, once trimmed, a single bare
    line (not empty, no "location:" label, neither "analysis:" nor "reply:"
    in it) is stored whole as the location, with [analysis] set to [None]:
    so is the "OK" the prompt asks for when both fields are present. What
    the state held for the two fields is overwritten. *)
Theorem bare_reply_is_the_location (w : World) (state : State) (st : store)
    (input : value) (result : reply) (line : string) :
  state !! "input" = Some input ->
  geo_chain w input = Ok result ->
  Py.contains "ASK_LOCATION" (Py.strip (answer_text result)) = false ->
  Py.contains "ASK_ANALYSIS" (Py.strip (answer_text result)) = false ->
  lines_of (Py.strip (answer_text result)) = [line] ->
  is_bare_line line = true ->
  fst (geo_query_node w state st)
  = Ok (<["analysis" := VNone]> (<["location" := VStr line]> state)).
Proof.
  intros Hin Hreply Hl Ha Hlines Hbare.
  rewrite (geo_query_node_parsed _ _ _ _ _ Hin Hreply Hl Ha), Hlines.
  assert (is_location_line line = false) as Hloc.
  { unfold is_bare_line in Hbare.
    destruct (is_location_line line); [|reflexivity].
    rewrite andb_false_r in Hbare. discriminate. }
  assert (is_analysis_line line = false) as Hana.
  { destruct (is_analysis_line line) eqn:E; [|reflexivity].
    rewrite (analysis_not_bare _ E) in Hbare. discriminate. }
  unfold location_after, analysis_after.
  cbn [last_where after_last existsb find truthy fst].
  rewrite Hloc, Hana. cbn [truthy find]. rewrite Hbare. reflexivity.
Qed.

Lemma bare_reply_is_the_location_witness :
  fst (geo_query_node (demo "query" "OK" ∅)
         (<["location" := VStr "Chennai"]> (fresh "Is Chennai flood prone?"))
         empty_store)
  = Ok (<["analysis" := VNone]>
          (<["location" := VStr "OK"]>
             (<["location" := VStr "Chennai"]>
                (fresh "Is Chennai flood prone?")))).
Proof.
  apply (bare_reply_is_the_location (demo "query" "OK" ∅)
           (<["location" := VStr "Chennai"]> (fresh "Is Chennai flood prone?"))
           empty_store (VStr "Is Chennai flood prone?")
           (message "OK") "OK"); reflexivity.
Defined.

(** X5. A reply that is empty once trimmed carries no sentinel, so it is
    parsed: the node sets both [location] and [analysis] to [None], whatever
    they were. *)
Theorem blank_reply_clears_both (w : World) (state : State) (st : store)
    (input : value) (result : reply) :
  state !! "input" = Some input ->
  geo_chain w input = Ok result ->
  Py.strip (answer_text result) = EmptyString ->
  fst (geo_query_node w state st)
  = Ok (<["analysis" := VNone]> (<["location" := VNone]> state)).
Proof.
  intros Hin Hreply Hblank.
  rewrite (geo_query_node_parsed _ _ _ _ _ Hin Hreply);
    rewrite Hblank; reflexivity.
Qed.

Lemma blank_reply_clears_both_witness :
  fst (geo_query_node (demo "query" "  
 " ∅)
         (<["location" := VStr "Chennai"]> (fresh "Is Chennai flood prone?"))
         empty_store)
  = Ok (<["analysis" := VNone]>
          (<["location" := VNone]>
             (<["location" := VStr "Chennai"]>
                (fresh "Is Chennai flood prone?")))).
Proof.
  apply (blank_reply_clears_both (demo "query" "  
 " ∅)
           (<["location" := VStr "Chennai"]> (fresh "Is Chennai flood prone?"))
           empty_store (VStr "Is Chennai flood prone?")
           (message "  
 ")); reflexivity.
Defined.

(** ** The Producer on statistics without a value *)

(** X7. When the statistics come back with a ['depth'] entry that is
    [None] (no data under the region), the default of [stats.get] does not
    apply: the comparison with 0.5 raises, and the Producer answers with the
    "Basic map" text carrying that [TypeError], not with a risk level. *)
Theorem null_depth_falls_back (w : World)
    (lat lon location_name : value) (st : store) (m0 : list layer)
    (base flood elev marker again : layer) (stats : gmap string value) :
  platform_layers (platform w) lat lon m0 base flood elev marker ->
  reduce_region (platform w) = Ok stats ->
  stats !! "depth" = Some VNone ->
  add_layer (platform w) (length (m0 ++ [base; flood; elev; marker]))
    "Selected Location" = Ok again ->
  fst (flood_vulnerability w lat lon location_name st)
  = Ok (VStr ("Basic map for (" +:+ py_str w lat +:+ ", " +:+ py_str w lon
              +:+ "). Error in flood analysis: "
              +:+ "'>' not supported between instances of 'NoneType' and 'float'"),
        VMap (m0 ++ [base; flood; elev; marker; again])).
Proof.
  intros Hlayers Hstats Hdepth Hagain.
  rewrite (flood_vulnerability_after_layers _ _ _ _ _ _ _ _ _ _ Hlayers).
  unfold narrative. rewrite Hstats, Hdepth, Hagain. reflexivity.
Qed.

Lemma null_depth_falls_back_witness :
  fst (flood_vulnerability
         (demo "query" "Location: Chennai" {[ "depth" := VNone ]})
         (VFloat 13.0836939) (VFloat 80.270186) (VStr "Chennai") empty_store)
  = Ok (VStr "Basic map for (#, #). Error in flood analysis: '>' not supported between instances of 'NoneType' and 'float'",
        VMap [osm_layer; satellite_layer; flood_layer; elevation_layer;
              marker_layer; marker_layer]).
Proof.
  exact (null_depth_falls_back
           (demo "query" "Location: Chennai" {[ "depth" := VNone ]})
           (VFloat 13.0836939) (VFloat 80.270186) (VStr "Chennai") empty_store
           [osm_layer] satellite_layer flood_layer elevation_layer
           marker_layer marker_layer {[ "depth" := VNone ]}
           (conj eq_refl (conj eq_refl (conj eq_refl (conj eq_refl
              (conj eq_refl (conj eq_refl (conj eq_refl eq_refl)))))))
           eq_refl eq_refl eq_refl).
Defined.

(** ** The payload of the node *)

(** X8. The payload reads the tile URLs by position. When the new map comes
    with one layer of its own and every request is answered, the map holds,
    in order, that layer, the base map, the flood layer, the elevation layer
    and the marker: the entry named "Flood Risk" gets the flood layer's URL,
    the entry named "Water Occurrence" the elevation layer's, and the entry
    named "Elevation" the marker layer's. *)
Theorem payload_urls_by_position (w : World) (state : State) (st : store)
    (a b : float) (own base flood elev marker : layer)
    (flood_url elev_url marker_url text : string) :
  state !! "lat" = Some (VFloat a) ->
  state !! "lon" = Some (VFloat b) ->
  (a =? 0)%float = false -> (b =? 0)%float = false ->
  platform_layers (platform w) (VFloat a) (VFloat b) [own] base flood elev
    marker ->
  narrative w (VFloat a) (VFloat b)
    (get_or state "location" (VStr "Selected Location")) = Ok text ->
  layer_url flood = Some flood_url ->
  layer_url elev = Some elev_url ->
  layer_url marker = Some marker_url ->
  exists out,
    fst (flood_vulnerability_node w state st) = Ok out
    /\ out !! "final_result" = Some (VStr text)
    /\ out !! "map_object" = Some (VMap [own; base; flood; elev; marker])
    /\ out !! "map_data"
       = Some (layered_map_data (VFloat a) (VFloat b)
                 (get_or state "location" (VStr "Selected Location"))
                 flood_url elev_url marker_url)
    /\ named_layer_url
         (layered_map_data (VFloat a) (VFloat b)
            (get_or state "location" (VStr "Selected Location"))
            flood_url elev_url marker_url) "Flood Risk"
       = Some (VStr flood_url)
    /\ named_layer_url
         (layered_map_data (VFloat a) (VFloat b)
            (get_or state "location" (VStr "Selected Location"))
            flood_url elev_url marker_url) "Water Occurrence"
       = Some (VStr elev_url)
    /\ named_layer_url
         (layered_map_data (VFloat a) (VFloat b)
            (get_or state "location" (VStr "Selected Location"))
            flood_url elev_url marker_url) "Elevation"
       = Some (VStr marker_url).
Proof.
  intros Hlat Hlon Ha Hb Hlayers Htext Hf He Hm.
  eexists. split.
  - erewrite flood_node_invokes; try eassumption; [reflexivity|].
    rewrite (flood_vulnerability_after_layers _ _ _ _ _ _ _ _ _ _ Hlayers).
    rewrite Htext. reflexivity.
  - cbn [fst snd app]. split; [|split].
    + rewrite !lookup_insert_ne by discriminate. apply lookup_insert_eq.
    + rewrite lookup_insert_ne by discriminate. apply lookup_insert_eq.
    + split; [|repeat split].
      rewrite lookup_insert_eq. unfold node_map_data.
      cbn [layer_url_at lookup list_lookup]. rewrite Hf, He, Hm. reflexivity.
Qed.

Lemma payload_urls_by_position_witness :
  exists out,
    fst (flood_vulnerability_node
           (demo "query" "Location: Chennai" {[ "depth" := VFloat 0.3 ]})
           (<["lon" := VFloat 80.270186]>
              (<["lat" := VFloat 13.0836939]>
                 (<["location" := VStr "Chennai"]>
                    (fresh "Is Chennai flood prone?"))))
           empty_store) = Ok out
    /\ out !! "map_data"
       = Some (layered_map_data (VFloat 13.0836939) (VFloat 80.270186)
                 (VStr "Chennai")
                 "tiles/Flood Hazard (0-1m depth)" "tiles/Elevation (m)"
                 "tiles/Selected Location").
Proof.
  assert (exists text,
             narrative
               (demo "query" "Location: Chennai" {[ "depth" := VFloat 0.3 ]})
               (VFloat 13.0836939) (VFloat 80.270186) (VStr "Chennai")
             = Ok text) as [text Htext]
      by (vm_compute; eexists; reflexivity).
  destruct (payload_urls_by_position
              (demo "query" "Location: Chennai" {[ "depth" := VFloat 0.3 ]})
              (<["lon" := VFloat 80.270186]>
                 (<["lat" := VFloat 13.0836939]>
                    (<["location" := VStr "Chennai"]>
                       (fresh "Is Chennai flood prone?"))))
              empty_store 13.0836939 80.270186
              osm_layer satellite_layer flood_layer elevation_layer
              marker_layer
              "tiles/Flood Hazard (0-1m depth)" "tiles/Elevation (m)"
              "tiles/Selected Location" text)
    as (out & Hrun & _ & _ & Hdata & _);
    [reflexivity | reflexivity | reflexivity | reflexivity | repeat split
    | exact Htext | reflexivity | reflexivity | reflexivity |].
  exists out. split; [exact Hrun | exact Hdata].
Defined.

(** X9. The payload needs five layers on the map. When the new map comes
    with no layer of its own, position 4 does not exist: although the
    analysis succeeded and its narrative is stored, the payload is the
    marker-only one with the text "Could not load map layers. Please try
    again." and without the [layers] entry. *)
Theorem payload_needs_five_layers (w : World) (state : State) (st : store)
    (a b : float) (base flood elev marker : layer) (text : string) :
  state !! "lat" = Some (VFloat a) ->
  state !! "lon" = Some (VFloat b) ->
  (a =? 0)%float = false -> (b =? 0)%float = false ->
  platform_layers (platform w) (VFloat a) (VFloat b) [] base flood elev
    marker ->
  narrative w (VFloat a) (VFloat b)
    (get_or state "location" (VStr "Selected Location")) = Ok text ->
  exists out payload,
    fst (flood_vulnerability_node w state st) = Ok out
    /\ out !! "final_result" = Some (VStr text)
    /\ out !! "map_object" = Some (VMap [base; flood; elev; marker])
    /\ out !! "map_data" = Some payload
    /\ field payload "error"
       = Some (VStr "Could not load map layers. Please try again.")
    /\ field payload "layers" = None.
Proof.
  intros Hlat Hlon Ha Hb Hlayers Htext.
  eexists _, _. split.
  - erewrite flood_node_invokes; try eassumption; [reflexivity|].
    rewrite (flood_vulnerability_after_layers _ _ _ _ _ _ _ _ _ _ Hlayers).
    rewrite Htext. reflexivity.
  - cbn [fst snd app]. split; [|split; [|split]].
    + rewrite !lookup_insert_ne by discriminate. apply lookup_insert_eq.
    + rewrite lookup_insert_ne by discriminate. apply lookup_insert_eq.
    + apply lookup_insert_eq.
    + unfold node_map_data. cbn [layer_url_at lookup list_lookup].
      destruct (layer_url elev), (layer_url marker); split; reflexivity.
Qed.

Lemma narrative_is_analysis_text (w : World) (lat lon location_name : value)
    (text : string) :
  narrative w lat lon location_name = Ok text ->
  exists level depth recommendation,
    analysis_text w lat lon location_name level depth recommendation
    = Ok text.
Proof.
  unfold narrative.
  destruct (reduce_region (platform w)) as [stats|]; [|discriminate].
  cbv zeta. destruct (risk _) as [tier|]; [|discriminate].
  destruct (analysis_text _ _ _ _ _ _ _) as [t|] eqn:Ht; [|discriminate].
  destruct (center_object (platform w)); [|discriminate].
  intros [= <-]. eauto.
Qed.

(** X10. When the state holds [location] with the value [None], the
    default of [state.get] does not apply: the marker of the payload has
    [None] for its popup, while the narrative, which tests the label for
    truth, is headed "Selected Location". *)
Theorem null_location_label (w : World) (state : State) (st : store)
    (a b : float) (own base flood elev marker : layer)
    (flood_url elev_url marker_url text : string) :
  state !! "location" = Some VNone ->
  state !! "lat" = Some (VFloat a) ->
  state !! "lon" = Some (VFloat b) ->
  (a =? 0)%float = false -> (b =? 0)%float = false ->
  platform_layers (platform w) (VFloat a) (VFloat b) [own] base flood elev
    marker ->
  narrative w (VFloat a) (VFloat b) VNone = Ok text ->
  layer_url flood = Some flood_url ->
  layer_url elev = Some elev_url ->
  layer_url marker = Some marker_url ->
  exists out payload,
    fst (flood_vulnerability_node w state st) = Ok out
    /\ out !! "final_result" = Some (VStr text)
    /\ Py.contains "## Flood Hazard Assessment for Selected Location" text
       = true
    /\ out !! "map_data" = Some payload
    /\ field payload "markers"
       = Some (VList [VDict [("position", point (VFloat a) (VFloat b));
                             ("popup", VNone);
                             ("color", VStr "red")]]).
Proof.
  intros Hloc Hlat Hlon Ha Hb Hlayers Htext Hf He Hm.
  assert (get_or state "location" (VStr "Selected Location") = VNone) as Hname
      by (unfold get_or; rewrite Hloc; reflexivity).
  eexists _, _. split.
  - erewrite flood_node_invokes; try eassumption; [reflexivity|].
    rewrite Hname.
    rewrite (flood_vulnerability_after_layers _ _ _ _ _ _ _ _ _ _ Hlayers).
    rewrite Htext. reflexivity.
  - cbn [fst snd app]. split; [|split; [|split]].
    + rewrite !lookup_insert_ne by discriminate. apply lookup_insert_eq.
    + apply narrative_is_analysis_text in Htext
        as (level & depth & recommendation & Htext).
      unfold analysis_text in Htext.
      destruct (fixed w 4 (VFloat a)); [|discriminate].
      destruct (fixed w 4 (VFloat b)); [|discriminate].
      destruct (fixed w 2 depth); [|discriminate].
      injection Htext as <-. reflexivity.
    + apply lookup_insert_eq.
    + rewrite Hname. unfold node_map_data.
      cbn [layer_url_at lookup list_lookup]. rewrite Hf, He, Hm. reflexivity.
Qed.

Lemma payload_needs_five_layers_witness :
  exists out payload,
    fst (flood_vulnerability_node (bare_map_world {[ "depth" := VFloat 0.3 ]})
           (located (VStr "Chennai") 13.0836939 80.270186) empty_store)
    = Ok out
    /\ out !! "map_data" = Some payload
    /\ field payload "error"
       = Some (VStr "Could not load map layers. Please try again.").
Proof.
  assert (exists text,
             narrative (bare_map_world {[ "depth" := VFloat 0.3 ]})
               (VFloat 13.0836939) (VFloat 80.270186) (VStr "Chennai")
             = Ok text) as [text Htext]
      by (vm_compute; eexists; reflexivity).
  destruct (payload_needs_five_layers
              (bare_map_world {[ "depth" := VFloat 0.3 ]})
              (located (VStr "Chennai") 13.0836939 80.270186) empty_store
              13.0836939 80.270186
              satellite_layer flood_layer elevation_layer marker_layer text)
    as (out & payload & Hrun & _ & _ & Hdata & Herror & _);
    [reflexivity | reflexivity | reflexivity | reflexivity | repeat split
    | exact Htext |].
  exists out, payload. split; [exact Hrun|]. split; [exact Hdata|exact Herror].
Defined.

Lemma null_location_label_witness :
  exists out payload,
    fst (flood_vulnerability_node
           (demo "query" "Analysis: flood risk" {[ "depth" := VFloat 0.3 ]})
           (located VNone 13.0836939 80.270186) empty_store)
    = Ok out
    /\ out !! "map_data" = Some payload
    /\ field payload "markers"
       = Some (VList [VDict [("position",
                              point (VFloat 13.0836939) (VFloat 80.270186));
                             ("popup", VNone);
                             ("color", VStr "red")]]).
Proof.
  assert (exists text,
             narrative
               (demo "query" "Analysis: flood risk" {[ "depth" := VFloat 0.3 ]})
               (VFloat 13.0836939) (VFloat 80.270186) VNone
             = Ok text) as [text Htext]
      by (vm_compute; eexists; reflexivity).
  destruct (null_location_label
              (demo "query" "Analysis: flood risk" {[ "depth" := VFloat 0.3 ]})
              (located VNone 13.0836939 80.270186) empty_store
              13.0836939 80.270186
              osm_layer satellite_layer flood_layer elevation_layer
              marker_layer
              "tiles/Flood Hazard (0-1m depth)" "tiles/Elevation (m)"
              "tiles/Selected Location" text)
    as (out & payload & Hrun & _ & _ & Hdata & Hmarkers);
    [reflexivity | reflexivity | reflexivity | reflexivity | reflexivity
    | repeat split | exact Htext | reflexivity | reflexivity | reflexivity |].
  exists out, payload. split; [exact Hrun|].
  split; [exact Hdata|exact Hmarkers].
Defined.

(** ** Whole turns *)

(** A turn that is not "normal" and whose reply carries no sentinel reaches
    the resolver with the parsed fields. *)
Lemma graph_invoke_query (w : World) (state : State) (input : value)
    (classified answered : reply) :
  state !! "input" = Some input ->
  intent_chain w input = Ok classified ->
  is_str (stored_intent classified) "normal" = false ->
  geo_chain w input = Ok answered ->
  Py.contains "ASK_LOCATION" (Py.strip (answer_text answered)) = false ->
  Py.contains "ASK_ANALYSIS" (Py.strip (answer_text answered)) = false ->
  graph_invoke w state
  = run 23 w Node.location_helper
      (extracted (channels state) classified answered)
      (Store (extractor_log input) []).
Proof.
  intros Hin H1 Hnot H2 Hl Ha.
  rewrite (graph_invoke_intent _ _ _ _ Hin H1), Hnot.
  change 24%nat with (S 23). rewrite run_step.
  unfold bind at 1. unfold log at 1. unfold bind at 1.
  cbn [run_node calls map_layers app].
  rewrite (geo_query_node_parsed w _ _ input answered) by
    (try (rewrite lookup_insert_ne by discriminate;
          rewrite channels_schema by reflexivity); assumption).
  do 2 (rewrite update_insert by reflexivity). rewrite update_same.
  unfold bind at 1. unfold lift at 1. cbn [route calls map_layers app].
  unfold extracted, extractor_log. reflexivity.
Qed.

Lemma extracted_lookup (state : State) (classified answered : reply)
    (k : string) :
  k <> "analysis" -> k <> "location" -> k <> "intent" ->
  extracted state classified answered !! k = state !! k.
Proof.
  intros H1 H2 H3. unfold extracted.
  rewrite !lookup_insert_ne by congruence. reflexivity.
Qed.

Lemma extracted_location (state : State) (classified answered : reply) :
  extracted state classified answered !! "location"
  = Some (location_after VNone (lines_of (Py.strip (answer_text answered)))).
Proof.
  unfold extracted. rewrite lookup_insert_ne by discriminate.
  apply lookup_insert_eq.
Qed.

(** X11. A turn whose location is extracted but not found by the geocoder
    (no match, or an exception), on a state without coordinates: the
    geocoder was asked once, for the location followed by ", India"; the
    Producer is not called; the turn ends with "Missing coordinates for
    flood analysis" for result, there is no way back to ask again. The
    payload with the default center that the node returned is not in the
    result of the graph. *)
Theorem unresolved_location_turn (w : World) (state : State) (input : value)
    (classified answered : reply) (place : string) :
  state !! "input" = Some input ->
  intent_chain w input = Ok classified ->
  is_str (stored_intent classified) "normal" = false ->
  geo_chain w input = Ok answered ->
  Py.contains "ASK_LOCATION" (Py.strip (answer_text answered)) = false ->
  Py.contains "ASK_ANALYSIS" (Py.strip (answer_text answered)) = false ->
  location_after VNone (lines_of (Py.strip (answer_text answered)))
  = VStr place ->
  Py.is_empty place = false ->
  (geocode w (place +:+ ", India") = Ok None
   \/ exists e, geocode w (place +:+ ", India") = Raise e) ->
  (get state "lat" = VNone \/ get state "lon" = VNone) ->
  exists out,
    graph_invoke w state
    = (Ok out,
       Store (extractor_log input
              ++ [Enter Node.location_helper;
                  CallGeocode (place +:+ ", India");
                  Enter Node.flood_vulnerability]) [])
    /\ out = <["final_result" := VStr "Missing coordinates for flood analysis"]>
               (extracted (channels state) classified answered)
    /\ out !! "final_result"
       = Some (VStr "Missing coordinates for flood analysis")
    /\ out !! "location" = Some (VStr place)
    /\ out !! "map_data" = None.
Proof.
  intros Hin H1 Hnot H2 Hl Ha Hplace Hne Hgeo Hcoord.
  eexists. split; [|split; [reflexivity|]].
  - rewrite (graph_invoke_query _ _ _ _ _ Hin H1 Hnot H2 Hl Ha).
    change 23%nat with (S (S 21)). rewrite run_step.
    unfold bind at 1. unfold log at 1. unfold bind at 1.
    cbn [run_node calls map_layers].
    rewrite location_helper_cases, extracted_location, Hplace, Hne. cbv zeta.
    assert (forall st : store,
               match geocode w (place +:+ ", India") with
               | Ok (Some (lat, lon)) =>
                   (Ok (<["lon" := VFloat lon]>
                          (<["lat" := VFloat lat]>
                             (extracted (channels state) classified
                                answered))), st)
               | _ => (Ok (extracted (channels state) classified answered), st)
               end
               = (Ok (extracted (channels state) classified answered), st))
      as -> by (intros st; destruct Hgeo as [->|[e ->]]; reflexivity).
    rewrite update_same.
    unfold bind at 1. unfold lift at 1. cbn [route calls map_layers].
    rewrite run_step. unfold bind at 1. unfold log at 1. unfold bind at 1.
    cbn [run_node calls map_layers].
    rewrite flood_node_guard.
    + unfold no_point_state.
      rewrite update_dropped, update_insert, update_same by reflexivity.
      unfold bind, lift, ret. cbn [route]. unfold extractor_log.
      rewrite <- !app_assoc. reflexivity.
    + unfold get in *. rewrite !extracted_lookup by discriminate.
      rewrite !channels_schema by reflexivity.
      destruct Hcoord as [->| ->]; [reflexivity|apply orb_true_r].
  - split; [apply lookup_insert_eq|]. split.
    + rewrite lookup_insert_ne by discriminate.
      rewrite extracted_location, Hplace. reflexivity.
    + rewrite lookup_insert_ne by discriminate.
      rewrite extracted_lookup by discriminate.
      rewrite channels_lookup. reflexivity.
Qed.

Lemma unresolved_location_turn_witness :
  exists out,
    graph_invoke (demo "query" "Location: Atlantis
Analysis: flood risk" ∅) (fresh "Is Atlantis flood prone?")
    = (Ok out,
       Store (extractor_log (VStr "Is Atlantis flood prone?")
              ++ [Enter Node.location_helper; CallGeocode "Atlantis, India";
                  Enter Node.flood_vulnerability]) [])
    /\ out !! "final_result"
       = Some (VStr "Missing coordinates for flood analysis")
    /\ out !! "map_data" = None.
Proof.
  destruct (unresolved_location_turn (demo "query" "Location: Atlantis
Analysis: flood risk" ∅) (fresh "Is Atlantis flood prone?")
              (VStr "Is Atlantis flood prone?")
              (message "query")
              (message "Location: Atlantis
Analysis: flood risk") "Atlantis")
    as (out & Hrun & _ & Hres & _ & Hdata);
    [reflexivity | reflexivity | reflexivity | reflexivity | reflexivity
    | reflexivity | reflexivity | reflexivity | left; reflexivity
    | left; reflexivity |].
  exists out. split; [exact Hrun|]. split; [exact Hres | exact Hdata].
Defined.

(** With two non-zero float coordinates the last step of a turn calls the
    Producer exactly once, and stores a text. *)
Lemma run_flood_located (fuel : nat) (w : World) (state : State) (st : store)
    (a b : float) :
  state !! "lat" = Some (VFloat a) ->
  state !! "lon" = Some (VFloat b) ->
  (a =? 0)%float = false -> (b =? 0)%float = false ->
  exists out st' text,
    run (S fuel) w Node.flood_vulnerability state st = (Ok out, st')
    /\ calls st'
       = (calls st
          ++ [Enter Node.flood_vulnerability;
              CallFloodVulnerability (VFloat a) (VFloat b)
                (get_or state "location" (VStr "Selected Location"))])%list
    /\ out !! "final_result" = Some (VStr text)
    /\ out !! "lat" = Some (VFloat a)
    /\ out !! "lon" = Some (VFloat b)
    /\ out !! "location" = state !! "location".
Proof.
  intros Hlat Hlon Ha Hb.
  rewrite run_step. unfold bind at 1. unfold log at 1. unfold bind at 1.
  cbn [run_node].
  match goal with
  | |- context [flood_vulnerability_node w state ?s] =>
      pose proof (flood_vulnerability_calls w (VFloat a) (VFloat b)
                    (get_or state "location" (VStr "Selected Location"))
                    (Store (calls s
                            ++ [CallFloodVulnerability (VFloat a) (VFloat b)
                                  (get_or state "location"
                                     (VStr "Selected Location"))])
                       (map_layers s))) as Hcalls;
      destruct (flood_vulnerability_total w (VFloat a) (VFloat b)
                  (get_or state "location" (VStr "Selected Location"))
                  (Store (calls s
                          ++ [CallFloodVulnerability (VFloat a) (VFloat b)
                                (get_or state "location"
                                   (VStr "Selected Location"))])
                     (map_layers s)))
        as (text & map_obj & st' & Hrun);
      rewrite Hrun in Hcalls;
      rewrite (flood_node_invokes w state s a b _ st' Hlat Hlon Ha Hb Hrun)
  end.
  rewrite update_dropped, !update_insert, update_same by reflexivity.
  unfold bind, lift, ret. cbn [route fst snd calls] in *.
  eexists _, _, text. split; [reflexivity|].
  split; [rewrite Hcalls, <- app_assoc; reflexivity|].
  split; [rewrite !lookup_insert_ne by discriminate; apply lookup_insert_eq|].
  rewrite !lookup_insert_ne by discriminate. auto.
Qed.

(** X12. Coordinates that the state already holds survive a failed
    geocode: when the extracted location is not found (no match, or an
    exception), the resolver leaves the state as it is, and the Producer is
    then called with the old coordinates and the newly extracted name. *)
Theorem stale_coordinates_are_used (w : World) (state : State)
    (input : value) (classified answered : reply) (place : string)
    (a b : float) :
  state !! "input" = Some input ->
  intent_chain w input = Ok classified ->
  is_str (stored_intent classified) "normal" = false ->
  geo_chain w input = Ok answered ->
  Py.contains "ASK_LOCATION" (Py.strip (answer_text answered)) = false ->
  Py.contains "ASK_ANALYSIS" (Py.strip (answer_text answered)) = false ->
  location_after VNone (lines_of (Py.strip (answer_text answered)))
  = VStr place ->
  Py.is_empty place = false ->
  (geocode w (place +:+ ", India") = Ok None
   \/ exists e, geocode w (place +:+ ", India") = Raise e) ->
  state !! "lat" = Some (VFloat a) ->
  state !! "lon" = Some (VFloat b) ->
  (a =? 0)%float = false -> (b =? 0)%float = false ->
  exists out st' text,
    graph_invoke w state = (Ok out, st')
    /\ calls st'
       = (extractor_log input
          ++ [Enter Node.location_helper;
              CallGeocode (place +:+ ", India");
              Enter Node.flood_vulnerability;
              CallFloodVulnerability (VFloat a) (VFloat b) (VStr place)])%list
    /\ out !! "final_result" = Some (VStr text)
    /\ out !! "location" = Some (VStr place)
    /\ out !! "lat" = Some (VFloat a)
    /\ out !! "lon" = Some (VFloat b).
Proof.
  intros Hin H1 Hnot H2 Hl Ha Hplace Hne Hgeo Hlat Hlon Hza Hzb.
  rewrite (graph_invoke_query _ _ _ _ _ Hin H1 Hnot H2 Hl Ha).
  change 23%nat with (S (S 21)). rewrite run_step.
  unfold bind at 1. unfold log at 1. unfold bind at 1.
  cbn [run_node calls map_layers].
  rewrite location_helper_cases, extracted_location, Hplace, Hne. cbv zeta.
  assert (forall st : store,
             match geocode w (place +:+ ", India") with
             | Ok (Some (lat, lon)) =>
                 (Ok (<["lon" := VFloat lon]>
                        (<["lat" := VFloat lat]>
                           (extracted (channels state) classified
                              answered))), st)
             | _ => (Ok (extracted (channels state) classified answered), st)
             end
             = (Ok (extracted (channels state) classified answered), st))
    as -> by (intros st; destruct Hgeo as [->|[e ->]]; reflexivity).
  rewrite update_same.
  unfold bind at 1. unfold lift at 1. cbn [route calls map_layers].
  match goal with
  | |- context [run 22 w Node.flood_vulnerability ?s ?st] =>
      destruct (run_flood_located 21 w s st a b)
        as (out & st' & text & Hrun & Hcalls & Hres & Hlat' & Hlon' & Hloc');
      [rewrite extracted_lookup by discriminate;
       rewrite channels_schema by reflexivity; exact Hlat
      |rewrite extracted_lookup by discriminate;
       rewrite channels_schema by reflexivity; exact Hlon
      |exact Hza|exact Hzb|]
  end.
  exists out, st', text. split; [exact Hrun|].
  unfold get_or in Hcalls. rewrite extracted_location, Hplace in Hcalls.
  rewrite extracted_location, Hplace in Hloc'.
  split; [|auto].
  rewrite Hcalls. cbn [calls default from_option id]. unfold extractor_log.
  rewrite <- !app_assoc. reflexivity.
Qed.

(** X13. A turn that goes all the way: not "normal", a location extracted,
    the geocoder finding it at a point with two non-zero coordinates. The
    geocoder is asked once, for the location followed by ", India"; the
    Producer is called once, with the coordinates of the match and the
    extracted name; the state ends with that location and those
    coordinates, and a text for result. Coordinates the state held before
    are replaced. *)
Theorem resolved_location_turn (w : World) (state : State)
    (input : value) (classified answered : reply) (place : string)
    (a b : float) :
  state !! "input" = Some input ->
  intent_chain w input = Ok classified ->
  is_str (stored_intent classified) "normal" = false ->
  geo_chain w input = Ok answered ->
  Py.contains "ASK_LOCATION" (Py.strip (answer_text answered)) = false ->
  Py.contains "ASK_ANALYSIS" (Py.strip (answer_text answered)) = false ->
  location_after VNone (lines_of (Py.strip (answer_text answered)))
  = VStr place ->
  Py.is_empty place = false ->
  geocode w (place +:+ ", India") = Ok (Some (a, b)) ->
  (a =? 0)%float = false -> (b =? 0)%float = false ->
  exists out st' text,
    graph_invoke w state = (Ok out, st')
    /\ calls st'
       = (extractor_log input
          ++ [Enter Node.location_helper;
              CallGeocode (place +:+ ", India");
              Enter Node.flood_vulnerability;
              CallFloodVulnerability (VFloat a) (VFloat b) (VStr place)])%list
    /\ out !! "final_result" = Some (VStr text)
    /\ out !! "location" = Some (VStr place)
    /\ out !! "lat" = Some (VFloat a)
    /\ out !! "lon" = Some (VFloat b).
Proof.
  intros Hin H1 Hnot H2 Hl Ha Hplace Hne Hgeo Hza Hzb.
  rewrite (graph_invoke_query _ _ _ _ _ Hin H1 Hnot H2 Hl Ha).
  change 23%nat with (S (S 21)). rewrite run_step.
  unfold bind at 1. unfold log at 1. unfold bind at 1.
  cbn [run_node calls map_layers].
  rewrite location_helper_cases, extracted_location, Hplace, Hne. cbv zeta.
  rewrite Hgeo.
  do 2 (rewrite update_insert by reflexivity). rewrite update_same.
  unfold bind at 1. unfold lift at 1. cbn [route calls map_layers].
  match goal with
  | |- context [run 22 w Node.flood_vulnerability ?s ?st] =>
      destruct (run_flood_located 21 w s st a b)
        as (out & st' & text & Hrun & Hcalls & Hres & Hlat' & Hlon' & Hloc');
      [rewrite lookup_insert_ne by discriminate; apply lookup_insert_eq
      |apply lookup_insert_eq
      |exact Hza|exact Hzb|]
  end.
  exists out, st', text. split; [exact Hrun|].
  unfold get_or in Hcalls.
  rewrite !lookup_insert_ne, extracted_location, Hplace in Hcalls
    by discriminate.
  rewrite !lookup_insert_ne, extracted_location, Hplace in Hloc'
    by discriminate.
  split; [|auto].
  rewrite Hcalls. cbn [calls default from_option id]. unfold extractor_log.
  rewrite <- !app_assoc. reflexivity.
Qed.

Lemma stale_coordinates_are_used_witness :
  exists out st' text,
    graph_invoke (demo "query" "Location: Atlantis" ∅)
      (located (VStr "Coimbatore") 11.0168 76.9558)
    = (Ok out, st')
    /\ calls st'
       = (extractor_log (VStr "Is this place flood prone?")
          ++ [Enter Node.location_helper; CallGeocode "Atlantis, India";
              Enter Node.flood_vulnerability;
              CallFloodVulnerability (VFloat 11.0168) (VFloat 76.9558)
                (VStr "Atlantis")])%list
    /\ out !! "final_result" = Some (VStr text).
Proof.
  destruct (stale_coordinates_are_used (demo "query" "Location: Atlantis" ∅)
              (located (VStr "Coimbatore") 11.0168 76.9558)
              (VStr "Is this place flood prone?")
              (message "query")
              (message "Location: Atlantis")
              "Atlantis" 11.0168 76.9558)
    as (out & st' & text & Hrun & Hcalls & Hres & _);
    [reflexivity | reflexivity | reflexivity | reflexivity | reflexivity
    | reflexivity | reflexivity | reflexivity | left; reflexivity
    | reflexivity | reflexivity | reflexivity | reflexivity |].
  exists out, st', text. split; [exact Hrun|]. split; [exact Hcalls|exact Hres].
Defined.

Lemma resolved_location_turn_witness :
  exists out st' text,
    graph_invoke (demo "query" "Location: Chennai
Analysis: flood risk" ∅)
      (fresh "Is Chennai flood prone?")
    = (Ok out, st')
    /\ calls st'
       = (extractor_log (VStr "Is Chennai flood prone?")
          ++ [Enter Node.location_helper; CallGeocode "Chennai, India";
              Enter Node.flood_vulnerability;
              CallFloodVulnerability (VFloat 13.0836939) (VFloat 80.270186)
                (VStr "Chennai")])%list
    /\ out !! "final_result" = Some (VStr text).
Proof.
  destruct (resolved_location_turn (demo "query" "Location: Chennai
Analysis: flood risk" ∅)
              (fresh "Is Chennai flood prone?")
              (VStr "Is Chennai flood prone?")
              (message "query")
              (message "Location: Chennai
Analysis: flood risk")
              "Chennai" 13.0836939 80.270186)
    as (out & st' & text & Hrun & Hcalls & Hres & _);
    [reflexivity | reflexivity | reflexivity | reflexivity | reflexivity
    | reflexivity | reflexivity | reflexivity | reflexivity
    | reflexivity | reflexivity |].
  exists out, st', text. split; [exact Hrun|]. split; [exact Hcalls|exact Hres].
Defined.

(** * The endpoint *)

Lemma json_response_status (S : Server) (status : Z) (body : value)
    (r : response) :
  json_response S status body = Ok r -> r = Response status body.
Proof.
  unfold json_response, and_then. destruct (render S body); [|discriminate].
  intros [= <-]. reflexivity.
Qed.

(** X14. Provided the last-resort answer can be rendered, the endpoint
    never raises: whatever the request holds, whatever the graph and the map
    object do, it answers 200 with the status "success" or 500 with the
    status "error". *)
Theorem agent_endpoint_always_answers (S : Server) (w : World) :
  (forall e, render S (failure_content e) = Ok tt) ->
  exists r,
    agent_endpoint S w = Ok r
    /\ ((status_code r = 200
         /\ field (content r) "status" = Some (VStr "success"))
        \/ (status_code r = 500
            /\ field (content r) "status" = Some (VStr "error"))).
Proof.
  intros Hrender.
  assert (forall e, exists r,
             json_response S 500 (failure_content e) = Ok r
             /\ ((status_code r = 200
                  /\ field (content r) "status" = Some (VStr "success"))
                 \/ (status_code r = 500
                     /\ field (content r) "status" = Some (VStr "error"))))
    as Hlast.
  { intros e. unfold json_response, and_then. rewrite Hrender.
    eexists. split; [reflexivity|]. right. split; reflexivity. }
  unfold agent_endpoint, or_else at 1.
  match goal with
  | |- context [match ?x with Ok _ => _ | Raise _ => _ end] =>
      destruct x as [r|e] eqn:Hrun
  end; [|apply Hlast].
  exists r. split; [reflexivity|].
  unfold and_then in Hrun.
  destruct (request_json S) as [data|]; [|discriminate].
  destruct (dict_get data "input" _) as [user_input|]; [|discriminate].
  destruct (dict_get data "location" VNone) as [found|]; [|discriminate].
  cbv zeta in Hrun. unfold or_else in Hrun.
  destruct (invoke S _) as [result|].
  - destruct (with_center result _) as [map_data|].
    + destruct (json_response S 200 _) as [r'|] eqn:Hok.
      * injection Hrun as <-. apply json_response_status in Hok as ->.
        left. split; reflexivity.
      * destruct (dict_get _ "lat" _) as [lat|]; [|discriminate].
        destruct (dict_get _ "lng" _) as [lng|]; [|discriminate].
        apply json_response_status in Hrun as ->. right. split; reflexivity.
    + destruct (dict_get _ "lat" _) as [lat|]; [|discriminate].
      destruct (dict_get _ "lng" _) as [lng|]; [|discriminate].
      apply json_response_status in Hrun as ->. right. split; reflexivity.
  - destruct (dict_get _ "lat" _) as [lat|]; [|discriminate].
    destruct (dict_get _ "lng" _) as [lng|]; [|discriminate].
    apply json_response_status in Hrun as ->. right. split; reflexivity.
Qed.

Lemma agent_endpoint_always_answers_witness :
  exists r,
    agent_endpoint
      (server (demo "query" "Location: Chennai" {[ "depth" := VFloat 0.3 ]})
         (VDict [("input", VStr "Is Chennai flood prone?")]))
      (demo "query" "Location: Chennai" {[ "depth" := VFloat 0.3 ]})
    = Ok r.
Proof.
  destruct (agent_endpoint_always_answers
              (server (demo "query" "Location: Chennai"
                         {[ "depth" := VFloat 0.3 ]})
                 (VDict [("input", VStr "Is Chennai flood prone?")]))
              (demo "query" "Location: Chennai" {[ "depth" := VFloat 0.3 ]}))
    as (r & Hrun & _).
  - intros e. reflexivity.
  - exists r. exact Hrun.
Defined.

(** X15. When the graph fails (an exception of the completion provider, or
    the import of [agent.py] itself), the endpoint answers 500 with the
    message "Error processing your request. Please try again." and a map
    centred on the latitude and longitude the request gave with its
    location, each replaced by its default (11.0168, 76.9558) when the
    request gave none, at zoom 10. *)
Theorem graph_failure_answer (S : Server) (w : World)
    (body loc : list (string * value)) (e : string) :
  request_json S = Ok (VDict body) ->
  (if truthy (default VNone (entry "location" body))
   then default VNone (entry "location" body) else VDict [])
  = VDict loc ->
  invoke S (initial_state w (default (VStr EmptyString) (entry "input" body))
              (VDict loc)) = Raise e ->
  render S (agent_error_content
              (default (VFloat 11.0168) (entry "lat" loc))
              (default (VFloat 76.9558) (entry "lng" loc))) = Ok tt ->
  agent_endpoint S w
  = Ok (Response 500
          (agent_error_content
             (default (VFloat 11.0168) (entry "lat" loc))
             (default (VFloat 76.9558) (entry "lng" loc)))).
Proof.
  intros Hbody Hloc Hfail Hrender.
  unfold agent_endpoint. rewrite Hbody.
  cbn [and_then dict_get]. rewrite Hloc, Hfail.
  cbn [or_else and_then dict_get]. unfold json_response.
  rewrite Hrender. reflexivity.
Qed.

Lemma graph_failure_answer_witness :
  agent_endpoint
    (server offline
       (VDict [("input", VStr "Is Chennai flood prone?");
               ("location", VDict [("name", VStr "Chennai");
                                   ("lat", VFloat 13.0836939)])]))
    offline
  = Ok (Response 500
          (agent_error_content (VFloat 13.0836939) (VFloat 76.9558))).
Proof.
  exact (graph_failure_answer
           (server offline
              (VDict [("input", VStr "Is Chennai flood prone?");
                      ("location", VDict [("name", VStr "Chennai");
                                          ("lat", VFloat 13.0836939)])]))
           offline
           [("input", VStr "Is Chennai flood prone?");
            ("location", VDict [("name", VStr "Chennai");
                                ("lat", VFloat 13.0836939)])]
           [("name", VStr "Chennai"); ("lat", VFloat 13.0836939)]
           "offline" eq_refl eq_refl eq_refl eq_refl).
Defined.

(** X16. A request whose location is a plain, non-empty string: the state
    gets that string for its location and no coordinates; and when the
    graph then fails, the handler itself fails on [location.get], so that
    the answer is the last-resort one, with the message "Agent processing
    failed: 'str' object has no attribute 'get'". *)
Theorem string_location_failure (S : Server) (w : World)
    (body : list (string * value)) (place e : string) :
  request_json S = Ok (VDict body) ->
  entry "location" body = Some (VStr place) ->
  Py.is_empty place = false ->
  invoke S (initial_state w (default (VStr EmptyString) (entry "input" body))
              (VStr place)) = Raise e ->
  render S (failure_content "'str' object has no attribute 'get'") = Ok tt ->
  initial_state w (default (VStr EmptyString) (entry "input" body))
    (VStr place) !! "location" = Some (VStr place)
  /\ initial_state w (default (VStr EmptyString) (entry "input" body))
       (VStr place) !! "lat" = Some VNone
  /\ agent_endpoint S w
     = Ok (Response 500
             (failure_content "'str' object has no attribute 'get'")).
Proof.
  intros Hbody Hloc Hne Hfail Hrender.
  split; [|split].
  - unfold initial_state. rewrite !lookup_insert_ne by discriminate.
    apply lookup_insert_eq.
  - unfold initial_state. rewrite !lookup_insert_ne by discriminate.
    apply lookup_insert_eq.
  - unfold agent_endpoint. rewrite Hbody.
    cbn [and_then dict_get]. rewrite Hloc.
    cbn [default from_option id truthy]. rewrite Hne. cbn [negb].
    rewrite Hfail. cbn [or_else and_then dict_get type_name].
    unfold json_response. 
    change ("'" +:+ "str" +:+ "' object has no attribute 'get'")
      with "'str' object has no attribute 'get'".
    rewrite Hrender. reflexivity.
Qed.

Lemma string_location_failure_witness :
  agent_endpoint
    (server offline
       (VDict [("input", VStr "Is it flood prone?");
               ("location", VStr "Chennai")]))
    offline
  = Ok (Response 500
          (failure_content "'str' object has no attribute 'get'")).
Proof.
  apply (string_location_failure
           (server offline
              (VDict [("input", VStr "Is it flood prone?");
                      ("location", VStr "Chennai")]))
           offline
           [("input", VStr "Is it flood prone?"); ("location", VStr "Chennai")]
           "Chennai" "offline" eq_refl eq_refl eq_refl eq_refl eq_refl).
Defined.

(** ** What the client gets of the map *)

(** What holds of the channels when a run starts and is kept by every
    update holds of the result. *)
Lemma run_invariant (P : State -> Prop) (fuel : nat) (w : World)
    (n : Node.t) (state out : State) (st : store) :
  (forall s r, P s -> P (update s r)) ->
  P state ->
  fst (run fuel w n state st) = Ok out ->
  P out.
Proof.
  intros Hstep. revert n state st.
  induction fuel as [|fuel IH]; intros n state st Hstate; [discriminate|].
  rewrite run_step. unfold bind at 1. unfold log at 1. unfold bind at 1.
  destruct (run_node w n state _) as [[returned|e] st']; [|discriminate].
  unfold bind, lift.
  destruct (route n (update state returned)) as [[n'|]|e]; [| |discriminate].
  - apply IH, Hstep, Hstate.
  - intros [= <-]. apply Hstep, Hstate.
Qed.

(** The result of the graph holds fields of the schema only. *)
Lemma graph_invoke_schema (w : World) (state out : State) (k : string) :
  fst (graph_invoke w state) = Ok out ->
  in_schema k = false -> out !! k = None.
Proof.
  intros Hrun Hk. revert Hrun.
  apply (run_invariant (fun s => s !! k = None)).
  - intros s r Hs. rewrite update_lookup, Hk. exact Hs.
  - rewrite channels_lookup, Hk. reflexivity.
Qed.

(** A field that the input of the graph holds is in its result. *)
Lemma graph_invoke_keeps_field (w : World) (state out : State) (k : string) :
  fst (graph_invoke w state) = Ok out ->
  in_schema k = true -> is_Some (state !! k) -> is_Some (out !! k).
Proof.
  intros Hrun Hk Hstate. revert Hrun.
  apply (run_invariant (fun s => is_Some (s !! k))).
  - intros s r Hs. rewrite update_lookup, Hk.
    destruct (r !! k); [eauto|exact Hs].
  - rewrite channels_schema by exact Hk. exact Hstate.
Qed.

Lemma initial_state_coordinates (w : World) (user_input location : value) :
  is_Some (initial_state w user_input location !! "lat")
  /\ is_Some (initial_state w user_input location !! "lon").
Proof.
  unfold initial_state. split.
  - rewrite !lookup_insert_ne by discriminate. rewrite lookup_insert_eq. eauto.
  - rewrite !lookup_insert_ne by discriminate. rewrite lookup_insert_eq. eauto.
Qed.

(** X18. The payload that the last node builds does not reach the client.
    The graph returns the fields of [AgentState] only, and [map_data] is not
    one of them: whenever the graph returns, [result.get("map_data", ...)]
    falls on the endpoint's own map, with no layer and no marker. Its
    center is what the result holds for [lat] and [lon], [None] when the
    turn found no coordinates: the state the endpoint builds has both keys,
    so that the defaults 11.0168 and 76.9558 never stand in. This is the
    answer, with the status 200, when the map object gives no dict of its
    own. *)
Theorem client_gets_fallback_map (S : Server) (w : World)
    (body loc : list (string * value)) (result : State) :
  request_json S = Ok (VDict body) ->
  (if truthy (default VNone (entry "location" body))
   then default VNone (entry "location" body) else VDict [])
  = VDict loc ->
  (forall state, invoke S state = fst (graph_invoke w state)) ->
  fst (graph_invoke w
         (initial_state w (default (VStr EmptyString) (entry "input" body))
            (VDict loc)))
  = Ok result ->
  (forall layers,
      result !! "map_object" = Some (VMap layers) -> to_dict S layers = None) ->
  render S (response_data result (fallback_map_data result)) = Ok tt ->
  agent_endpoint S w
  = Ok (Response 200 (response_data result (fallback_map_data result)))
  /\ result !! "map_data" = None
  /\ field (response_data result (fallback_map_data result)) "map_data"
     = Some (VDict [("center", VDict [("lat", get result "lat");
                                      ("lng", get result "lon")]);
                    ("zoom", VInt 12);
                    ("layers", VList []);
                    ("markers", VList [])]).
Proof.
  intros Hbody Hloc Hgraph Hrun Hmap Hrender.
  pose proof (graph_invoke_schema _ _ _ "map_data" Hrun eq_refl) as Hdata.
  destruct (initial_state_coordinates w
              (default (VStr EmptyString) (entry "input" body)) (VDict loc))
    as [Hlat Hlon].
  destruct (graph_invoke_keeps_field _ _ _ "lat" Hrun eq_refl Hlat)
    as [lat Hlat'].
  destruct (graph_invoke_keeps_field _ _ _ "lon" Hrun eq_refl Hlon)
    as [lon Hlon'].
  split; [|split; [exact Hdata|]].
  - unfold agent_endpoint. rewrite Hbody.
    cbn [and_then dict_get]. rewrite Hloc, Hgraph, Hrun. cbn [and_then].
    replace (get_or result "map_data" (fallback_map_data result))
      with (fallback_map_data result)
      by (unfold get_or; rewrite Hdata; reflexivity).
    assert (with_map_object S w result (fallback_map_data result)
            = fallback_map_data result) as ->.
    { unfold with_map_object.
      destruct (result !! "map_object") as [[| | | | | | |layers]|];
        try reflexivity.
      rewrite (Hmap layers eq_refl). reflexivity. }
    unfold with_center, fallback_map_data. cbn [has_key and_then entry].
    cbn [String.eqb Ascii.eqb Bool.eqb negb andb and_then].
    unfold json_response. fold (fallback_map_data result).
    rewrite Hrender. reflexivity.
  - unfold response_data, fallback_map_data, get_or, get.
    rewrite Hlat', Hlon'. reflexivity.
Qed.

Lemma client_gets_fallback_map_witness :
  exists r,
    agent_endpoint
      (server (demo "query" "Location: Atlantis" ∅)
         (VDict [("input", VStr "Is Atlantis flood prone?")]))
      (demo "query" "Location: Atlantis" ∅)
    = Ok r
    /\ status_code r = 200
    /\ field (content r) "text"
       = Some (VStr "Missing coordinates for flood analysis")
    /\ field (content r) "map_data"
       = Some (VDict [("center", VDict [("lat", VNone); ("lng", VNone)]);
                      ("zoom", VInt 12);
                      ("layers", VList []);
                      ("markers", VList [])]).
Proof.
  destruct (client_gets_fallback_map
              (server (demo "query" "Location: Atlantis" ∅)
                 (VDict [("input", VStr "Is Atlantis flood prone?")]))
              (demo "query" "Location: Atlantis" ∅)
              [("input", VStr "Is Atlantis flood prone?")] []
              (final_state
                 (graph_invoke (demo "query" "Location: Atlantis" ∅)
                    (initial_state (demo "query" "Location: Atlantis" ∅)
                       (VStr "Is Atlantis flood prone?") (VDict []))))
              eq_refl eq_refl)
    as (Hrun & _ & Hdata).
  - intros state. reflexivity.
  - vm_compute. reflexivity.
  - intros layers H. vm_compute in H. discriminate.
  - reflexivity.
  - eexists. split; [exact Hrun|]. split; [reflexivity|].
    cbn [content]. split; [vm_compute; reflexivity|].
    rewrite Hdata. vm_compute. reflexivity.
Defined.

(** ** The layer of the map object *)

Lemma entry_set_entry (key : string) (x : value)
    (entries : list (string * value)) :
  entry key (set_entry key x entries) = Some x.
Proof.
  induction entries as [|[k v] rest IH]; cbn [set_entry entry].
  - rewrite String.eqb_refl. reflexivity.
  - destruct (String.eqb k key) eqn:E; cbn [entry]; rewrite E;
      [reflexivity | exact IH].
Qed.

Lemma entry_set_entry_other (key k' : string) (x : value)
    (entries : list (string * value)) :
  k' <> key -> entry k' (set_entry key x entries) = entry k' entries.
Proof.
  intros Hne. induction entries as [|[k v] rest IH]; cbn [set_entry entry].
  - destruct (String.eqb_spec key k'); [congruence|reflexivity].
  - destruct (String.eqb_spec k key) as [->|Hk]; cbn [entry].
    + destruct (String.eqb_spec key k'); [congruence|reflexivity].
    + rewrite IH. reflexivity.
Qed.

(** X19. When the result's map object gives a dict with a map id and a
    token, and [map_data] is a dict: the answer's [map_data] has one layer
    more, last in its [layers] list (a list made for the occasion when
    there was none), of type "ee_tile_layer", with the token and a tile URL
    built on the map id; every other entry of [map_data] is as it was. *)
Theorem map_object_layer_appended (S : Server) (w : World) (result : State)
    (layers : list layer) (info md : list (string * value))
    (mapid token : value) :
  result !! "map_object" = Some (VMap layers) ->
  to_dict S layers = Some (Ok (VDict info)) ->
  entry "mapid" info = Some mapid ->
  entry "token" info = Some token ->
  (entry "layers" md = None
   \/ exists items, entry "layers" md = Some (VList items)) ->
  exists md',
    with_map_object S w result (VDict md) = VDict md'
    /\ entry "layers" md'
       = Some (VList (match entry "layers" md with
                      | Some (VList items) => items
                      | _ => []
                      end ++ [ee_tile_layer w mapid token]))
    /\ (forall k, k <> "layers" -> entry k md' = entry k md)
    /\ field (ee_tile_layer w mapid token) "url"
       = Some (VStr ("https://earthengine.googleapis.com/v1alpha/"
                     +:+ py_str w mapid +:+ "/tiles/{z}/{x}/{y}"))
    /\ field (ee_tile_layer w mapid token) "token" = Some token.
Proof.
  intros Hobj Hdict Hid Htoken Hlayers.
  unfold with_map_object. rewrite Hobj, Hdict, Hid, Htoken.
  unfold append_layer. cbn [has_key and_then].
  destruct Hlayers as [Hnone|[items Hsome]].
  - rewrite Hnone. cbn [negb and_then set_item].
    rewrite entry_set_entry. eexists. split; [reflexivity|].
    split; [apply entry_set_entry|]. split; [|split; reflexivity].
    intros k Hk. rewrite !entry_set_entry_other by exact Hk. reflexivity.
  - rewrite Hsome. cbn [negb and_then]. rewrite Hsome.
    eexists. split; [reflexivity|].
    split; [apply entry_set_entry|]. split; [|split; reflexivity].
    intros k Hk. apply entry_set_entry_other. exact Hk.
Qed.

Lemma map_object_layer_appended_witness :
  exists md',
    with_map_object (tiled_server offline VNone) offline
      (<["map_object" := VMap [osm_layer]]> ∅)
      (VDict [("center", point (VFloat 11.0168) (VFloat 76.9558));
              ("zoom", VInt 12)])
    = VDict md'
    /\ entry "layers" md'
       = Some (VList [ee_tile_layer offline (VStr "projects/p/maps/abc")
                        (VStr "t0k")])
    /\ entry "zoom" md' = Some (VInt 12).
Proof.
  destruct (map_object_layer_appended (tiled_server offline VNone) offline
              (<["map_object" := VMap [osm_layer]]> ∅) [osm_layer]
              [("mapid", VStr "projects/p/maps/abc"); ("token", VStr "t0k")]
              [("center", point (VFloat 11.0168) (VFloat 76.9558));
               ("zoom", VInt 12)]
              (VStr "projects/p/maps/abc") (VStr "t0k"))
    as (md' & Hrun & Hlayers & Hother & _).
  - reflexivity.
  - reflexivity.
  - reflexivity.
  - reflexivity.
  - left. reflexivity.
  - exists md'. split; [exact Hrun|]. split; [exact Hlayers|].
    rewrite Hother by discriminate. reflexivity.
Defined.
